(** * TARDIS: Slurm and Exoscale site adapters, and the Drone entity

  A shallow embedding of

  - [tardis/adapters/sites/slurm.py]  (module [Slurm]),
  - [tardis/adapter/exoscale.py]      (module [Exoscale]),
  - [tardis/resources/drone.py]       (module [DroneModel]),

  together with the properties of the lifecycle specification that
  concern them.  Python values are dynamically typed, so dictionaries
  are finite maps from strings to a small universe of values, exceptions
  are data, and every effect the code performs (reading the wall clock,
  running a command, mutating the attribute dictionary it was handed)
  is threaded through an explicit world. *)

From Stdlib Require Import ZArith List String Ascii Bool Lia.
From Stdlib Require Import Floats DecimalString.
From stdpp Require Import base option gmap strings list.

Set Warnings "-register-all".

Local Open Scope Z_scope.
Local Open Scope string_scope.

(** ** Python: exceptions, results, dynamic values *)

Module Py.

(** The exception classes the adapters mention, by class.  Everything
    that derives from [Exception] without being one of the named
    classes is [OtherException]; what derives from [BaseException]
    only (KeyboardInterrupt, SystemExit, a cancelled task ...) is
    [BaseExceptionOnly] and is not caught by [except Exception]. *)
Inductive exn_class : Type :=
| CommandExecutionFailure
| TardisResourceStatusUpdateFailed
| TardisTimeout
| TardisError
| TimeoutError
| CloudStackClientException
| KeyError
| IndexError
| ValueError
| AttributeError
| TypeError
| OtherException (name : string)
| BaseExceptionOnly (name : string).

(** An exception instance: its class, its [__cause__] (set by
    [raise ... from ...]) and its [__context__] (set whenever an
    exception is raised while another one is being handled). *)
Inductive exn : Type :=
| Exn (cls : exn_class) (cause : option exn) (context : option exn).

Definition exn_cls (e : exn) : exn_class := let 'Exn c _ _ := e in c.
Definition exn_cause (e : exn) : option exn := let 'Exn _ c _ := e in c.
Definition exn_context (e : exn) : option exn := let 'Exn _ _ c := e in c.

(** A freshly constructed exception, raised outside any handler. *)
Definition fresh (c : exn_class) : exn := Exn c None None.

(** [raise C] inside the handler of [e]. *)
Definition raise_in_handler (c : exn_class) (e : exn) : exn :=
  Exn c None (Some e).

(** [raise C from e] inside the handler of [e]. *)
Definition raise_from (c : exn_class) (e : exn) : exn :=
  Exn c (Some e) (Some e).

(** [isinstance(e, Exception)]. *)
Definition is_Exception (e : exn) : bool :=
  match exn_cls e with
  | BaseExceptionOnly _ => false
  | _ => true
  end.

Inductive result (A : Type) : Type :=
| Ok (a : A)
| Raise (e : exn).
Arguments Ok {A} a.
Arguments Raise {A} e.

Definition is_Ok {A} (r : result A) : bool :=
  match r with Ok _ => true | Raise _ => false end.

Definition result_bind {A B} (r : result A) (k : A -> result B) : result B :=
  match r with
  | Ok a => k a
  | Raise e => Raise e
  end.

End Py.
Export Py.

(** What the design document asks of an exception-translation
    boundary [translate]: a timeout becomes [TardisTimeout], any other
    error becomes [TardisError], each carrying the original exception as
    its cause.  (An exception that is not an [Exception] is no error of
    a remote call.) *)
Definition translates_as_specified (translate : exn -> exn) (e : exn)
  : Prop :=
  match exn_cls e with
  | TimeoutError => translate e = raise_from TardisTimeout e
  | BaseExceptionOnly _ => True
  | _ => translate e = raise_from TardisError e
  end.

(** ** Canonical resource status ([interfaces/siteadapter.py]) *)

Inductive ResourceStatus : Type :=
| Booting
| Running
| Stopped
| Deleted
| Error.

#[global] Instance ResourceStatus_eq_dec : EqDecision ResourceStatus.
Proof. solve_decision. Defined.

Definition ResourceStatus_name (s : ResourceStatus) : string :=
match s with
| Booting => "Booting"
| Running => "Running"
| Stopped => "Stopped"
| Deleted => "Deleted"
| Error => "Error"
end.

(** ** Python strings and numbers

  A [str] is modelled by [string], one character per code point below
  256; on that range [\d] is exactly the ASCII digits and the
  whitespace stripped by [str.strip] and by [int] is the set below. *)

Module PyStr.

Definition is_digit (c : ascii) : bool :=
  let n := nat_of_ascii c in (48 <=? n)%nat && (n <=? 57)%nat.

Definition digit_value (c : ascii) : Z := Z.of_nat (nat_of_ascii c) - 48.

Definition is_space (c : ascii) : bool :=
  let n := nat_of_ascii c in
  ((9 <=? n)%nat && (n <=? 13)%nat)
  || ((28 <=? n)%nat && (n <=? 32)%nat)
  || (n =? 133)%nat || (n =? 160)%nat.

Definition newline : ascii := ascii_of_nat 10.

Fixpoint all_digits (s : string) : bool :=
  match s with
  | EmptyString => true
  | String c rest => is_digit c && all_digits rest
  end.

(** The longest prefix of digits: what the group of digits captures. *)
Fixpoint take_digits (s : string) : string :=
  match s with
  | EmptyString => EmptyString
  | String c rest =>
      if is_digit c then String c (take_digits rest) else EmptyString
  end.

(** [s[len(p):]] when [s.startswith(p)]. *)
Fixpoint strip_prefix (p s : string) : option string :=
  match p, s with
  | EmptyString, _ => Some s
  | String a p', String b s' =>
      if Ascii.eqb a b then strip_prefix p' s' else None
  | String _ _, EmptyString => None
  end.

Fixpoint lstrip (s : string) : string :=
  match s with
  | EmptyString => EmptyString
  | String c rest => if is_space c then lstrip rest else s
  end.

Fixpoint rev_string (acc s : string) : string :=
  match s with
  | EmptyString => acc
  | String c rest => rev_string (String c acc) rest
  end.

Definition rstrip (s : string) : string :=
  rev_string EmptyString (lstrip (rev_string EmptyString s)).

(** [s.strip()]. *)
Definition strip (s : string) : string := rstrip (lstrip s).

(** The value of a run of decimal digits, most significant first. *)
Fixpoint digits_value (acc : Z) (s : string) : Z :=
  match s with
  | EmptyString => acc
  | String c rest => digits_value (10 * acc + digit_value c) rest
  end.

(** The digit groups of an integer literal: digits, with single
    underscores allowed between two digits.  [prev] says whether the
    previous character was a digit; the result is the literal with
    the underscores removed. *)
Fixpoint literal_digits (prev : bool) (s : string) : option string :=
  match s with
  | EmptyString => if prev then Some EmptyString else None
  | String c rest =>
      if is_digit c then
        match literal_digits true rest with
        | Some ds => Some (String c ds)
        | None => None
        end
      else if Ascii.eqb c "_" then
        if prev then
          match rest with
          | EmptyString => None
          | String _ _ => literal_digits false rest
          end
        else None
      else None
  end.

(** [int(s)] for a [str]: surrounding whitespace, an optional sign,
    then a decimal literal; [None] stands for [ValueError]. *)
Definition int_of_str (s : string) : option Z :=
  match strip s with
  | EmptyString => None
  | String c rest =>
      let '(neg, body) :=
        if Ascii.eqb c "-" then (true, rest)
        else if Ascii.eqb c "+" then (false, rest)
        else (false, String c rest) in
      match body with
      | EmptyString => None
      | String d _ =>
          if is_digit d then
            match literal_digits false body with
            | Some ds =>
                let v := digits_value 0 ds in
                Some (if neg then - v else v)
            | None => None
            end
          else None
      end
  end.

(** [str(n)] for an [int]. *)
Definition str_of_int (z : Z) : string :=
  DecimalString.NilZero.string_of_int (Z.to_int z).

End PyStr.

(** ** Dynamic values stored in dictionaries *)

(** A [datetime] is the number of microseconds since 1970-01-01 00:00:00
    on the (naive) wall clock; subtraction of two of them is a
    [timedelta], whose [total_seconds()] has the sign of the
    difference. *)
Inductive value : Type :=
| VNone
| VInt (z : Z)
| VStr (s : string)
| VDatetime (us : Z)
| VStatus (s : ResourceStatus).

Module PyValue.
Import PyStr.

(** Decimal rendering of a non-negative number, padded with zeros on
    the left to [width] characters ([%02d], [%04d], [%06d]). *)
Fixpoint zero_pad (fuel width : nat) (s : string) : string :=
  match fuel with
  | O => s
  | S fuel' =>
      if (String.length s <? width)%nat
      then zero_pad fuel' width (String "0" s)
      else s
  end.

Definition padded (width : nat) (z : Z) : string :=
  zero_pad width width (str_of_int z).

(** The proleptic Gregorian date of a day number counted from
    1970-01-01, as (year, month, day). *)
Definition civil_from_days (days : Z) : Z * Z * Z :=
  let z := days + 719468 in
  let era := z / 146097 in
  let doe := z - era * 146097 in
  let yoe := (doe - doe / 1460 + doe / 36524 - doe / 146096) / 365 in
  let doy := doe - (365 * yoe + yoe / 4 - yoe / 100) in
  let mp := (5 * doy + 2) / 153 in
  let d := doy - (153 * mp + 2) / 5 + 1 in
  let m := if (mp <? 10)%Z then mp + 3 else mp - 9 in
  let y := yoe + era * 400 + (if (m <=? 2)%Z then 1 else 0) in
  (y, m, d).

(** [str(dt)] for a [datetime]: ISO format with a space separator, the
    microseconds shown only when they are not zero. *)
Definition str_of_datetime (us : Z) : string :=
  let secs := us / 1000000 in
  let micro := us mod 1000000 in
  let days := secs / 86400 in
  let sod := secs mod 86400 in
  let '(y, m, d) := civil_from_days days in
  padded 4 y ++ "-" ++ padded 2 m ++ "-" ++ padded 2 d ++ " "
  ++ padded 2 (sod / 3600) ++ ":" ++ padded 2 ((sod mod 3600) / 60)
  ++ ":" ++ padded 2 (sod mod 60)
  ++ (if (micro =? 0)%Z then "" else "." ++ padded 6 micro).

(** [str(v)], which is also what an f-string field [{v}] produces. *)
Definition py_str (v : value) : string :=
  match v with
  | VNone => "None"
  | VInt z => str_of_int z
  | VStr s => s
  | VDatetime us => str_of_datetime us
  | VStatus s => "ResourceStatus." ++ ResourceStatus_name s
  end.

(** [int(v)]. *)
Definition py_int (v : value) : result Z :=
  match v with
  | VInt z => Ok z
  | VStr s =>
      match int_of_str s with
      | Some z => Ok z
      | None => Raise (fresh ValueError)
      end
  | VNone | VDatetime _ | VStatus _ => Raise (fresh TypeError)
  end.

End PyValue.

(** ** The world the adapter code runs in *)

(** What [executor.run_command] returns on success. *)
Record CommandResult : Type := {
  stdout : string;
  stderr : string;
  exit_code : Z;
}.

(** The visible state of the [AsyncCacheMap] held in
    [self._slurm_status]: the rows of the latest batch, keyed by job id,
    and the time of the last refresh. *)
Record AsyncCacheMap : Type := {
  data : gmap string (gmap string value);
  last_update : Z;
}.

(** The state on the side of the site: how often the wall clock has
    been read, which commands have been run (latest first), and the
    status cache. *)
Record Site : Type := {
  ticks : nat;
  commands : list string;
  slurm_status : AsyncCacheMap;
}.

(** The whole state: the site, and the [AttributeDict] object that the
    caller passed in as [resource_attributes].  The adapter mutates that
    object in place, so it lives in the state and not in a return
    value. *)
Record World : Type := {
  site : Site;
  resource_attributes : gmap string value;
}.

(** What the code cannot determine itself.  [now_at n] is what the
    [n]-th call of [datetime.now()] returns.  [executor history cmd] is
    the outcome of [run_command cmd] after the commands in [history]
    (latest first) have been run; a failing command raises
    [CommandExecutionFailure].  [update_status] is the effect of
    [await self._slurm_status.update_status()] on the site; the class
    [AsyncCacheMap] is not among the sources translated here. *)
Record Env : Type := {
  now_at : nat -> Z;
  executor : list string -> string -> result CommandResult;
  update_status : Site -> result unit * Site;
}.

Module Effects.

(** A computation that may raise and that may change the world; the
    changes made before an exception is raised persist. *)
Definition M (A : Type) : Type := World -> result A * World.

Definition ret {A} (a : A) : M A := fun w => (Ok a, w).

Definition raise {A} (e : exn) : M A := fun w => (Raise e, w).

Definition bind {A B} (m : M A) (k : A -> M B) : M B :=
  fun w =>
    match m w with
    | (Ok a, w') => k a w'
    | (Raise e, w') => (Raise e, w')
    end.

Definition lift {A} (r : result A) : M A := fun w => (r, w).

Definition with_site (w : World) (s : Site) : World :=
  {| site := s; resource_attributes := resource_attributes w |}.

(** [datetime.now()]. *)
Definition now (env : Env) : M Z :=
  fun w =>
    let s := site w in
    (Ok (now_at env (ticks s)),
     with_site w {| ticks := S (ticks s); commands := commands s;
                    slurm_status := slurm_status s |}).

(** [await self._executor.run_command(cmd)]. *)
Definition run_command (env : Env) (cmd : string) : M CommandResult :=
  fun w =>
    let s := site w in
    (executor env (commands s) cmd,
     with_site w {| ticks := ticks s; commands := cmd :: commands s;
                    slurm_status := slurm_status s |}).

(** [await self._slurm_status.update_status()]. *)
Definition await_update_status (env : Env) : M unit :=
  fun w => let '(r, s') := update_status env (site w) in (r, with_site w s').

(** Reading the cache object. *)
Definition read_cache : M AsyncCacheMap :=
  fun w => (Ok (slurm_status (site w)), w).

(** The current contents of [resource_attributes]. *)
Definition read_attributes : M (gmap string value) :=
  fun w => (Ok (resource_attributes w), w).

(** [resource_attributes.update(k1=v1, ...)]: later keys win, and every
    key overrides what the dictionary held. *)
Definition update_attributes (kwargs : list (string * value)) : M unit :=
  fun w =>
    (Ok tt,
     {| site := site w;
        resource_attributes :=
          fold_left (fun d kv => <[kv.1 := kv.2]> d) kwargs
                    (resource_attributes w) |}).

(** [resource_attributes.<name>]: attribute access on a dictionary that
    has no such key raises [AttributeError]. *)
Definition getattr (name : string) : M value :=
  fun w =>
    match resource_attributes w !! name with
    | Some v => (Ok v, w)
    | None => (Raise (fresh AttributeError), w)
    end.

End Effects.

Declare Scope effects_scope.
Delimit Scope effects_scope with eff.
Notation "x <- m ;; k" := (Effects.bind m (fun x => k))
  (at level 100, m at next level, right associativity) : effects_scope.
Notation "m ;;; k" := (Effects.bind m (fun _ => k))
  (at level 100, right associativity) : effects_scope.

(** ** The base class [SiteAdapter] *)

Module SiteAdapter.

(** Modelled from the spec: [SiteAdapter.handle_response]
    ([interfaces/siteadapter.py]) is not among the sources; the adapter
    binds [key_translator] and [translator_functions] to it and calls it
    with a provider response and, as keyword arguments, further content.
    It "turns provider-native responses into canonical resource-status
    records": for every (translated key, provider key) pair whose
    provider key occurs in the response, the translated key receives the
    value, passed through the translator function registered for the
    provider key if there is one; a provider key absent from the
    response is skipped (both call sites in the Slurm adapter pass
    responses that lack one of the two keys); the further content is
    then written over the result. *)
Fixpoint translate_keys
    (key_translator : list (string * string))
    (translator_functions : gmap string (value -> result value))
    (response : gmap string value)
    (translated_response : gmap string value) : result (gmap string value) :=
  match key_translator with
  | [] => Ok translated_response
  | (translated_key, key) :: rest =>
      match response !! key with
      | None =>
          translate_keys rest translator_functions response translated_response
      | Some v =>
          let f := default (fun x => Ok x) (translator_functions !! key) in
          match f v with
          | Ok v' =>
              translate_keys rest translator_functions response
                (<[translated_key := v']> translated_response)
          | Raise e =>
              match exn_cls e with
              | KeyError =>
                  translate_keys rest translator_functions response
                    translated_response
              | _ => Raise e
              end
          end
      end
  end.

Definition handle_response
    (key_translator : list (string * string))
    (translator_functions : gmap string (value -> result value))
    (response : gmap string value)
    (additional_content : gmap string value) : result (gmap string value) :=
  result_bind
    (translate_keys key_translator translator_functions response ∅)
    (fun translated_response => Ok (additional_content ∪ translated_response)).

End SiteAdapter.

(** ** [tardis/adapters/sites/slurm.py] *)

Module Slurm.
Import PyStr PyValue Effects.
Local Open Scope effects_scope.

(** The configuration the adapter reads in [__init__] and through the
    properties of its base class, with the values already formatted the
    way an f-string formats them.  [StatusUpdate] is in minutes.
    [drone_uuid] is the base-class method of that name. *)
Record SlurmAdapter : Type := {
  machine_type : string;
  site_name : string;
  startup_command : string;
  Partition : string;
  Walltime : string;
  Cores : string;
  Memory : string;
  StatusUpdate : Z;
  drone_uuid : string -> string;
}.

(** [max_age=self._configuration.StatusUpdate * 60], in seconds. *)
Definition max_age (a : SlurmAdapter) : Z := StatusUpdate a * 60.

Definition key_translator : list (string * string) :=
  [("remote_resource_uuid", "JobId"); ("resource_status", "State")].

(** The job state codes of [squeue] and the canonical status of each. *)
Definition state_translator : list (string * ResourceStatus) :=
  [("CANCELLED", Deleted);
   ("COMPLETED", Deleted);
   ("COMPLETING", Running);
   ("CONFIGURING", Booting);
   ("PENDING", Booting);
   ("PREEMPTED", Deleted);
   ("RESV_DEL_HOLD", Stopped);
   ("REQUEUE_FED", Booting);
   ("REQUEUE_HOLD", Booting);
   ("REQUEUED", Booting);
   ("RESIZING", Running);
   ("RUNNING", Running);
   ("SIGNALING", Running);
   ("SPECIAL_EXIT", Booting);
   ("STAGE_OUT", Running);
   ("STOPPED", Stopped);
   ("SUSPENDED", Stopped)].

Definition state_codes : list string := state_translator.*1.

(** [translator.get(x, default=ResourceStatus.Error)] for a string. *)
Definition translate_state (x : string) : ResourceStatus :=
  default Error
    ((list_to_map state_translator : gmap string ResourceStatus) !! x).

(** The function registered under [State]; a value that is not a
    string is not a key of the mapping. *)
Definition State_function (x : value) : result value :=
  match x with
  | VStr s => Ok (VStatus (translate_state s))
  | _ => Ok (VStatus Error)
  end.

(** The function registered under [JobId]: [lambda x: int(x)]. *)
Definition JobId_function (x : value) : result value :=
  result_bind (py_int x) (fun z => Ok (VInt z)).

Definition translator_functions : gmap string (value -> result value) :=
  <["State" := State_function]> (<["JobId" := JobId_function]> ∅).

(** [self.handle_response] after the [partial] of [__init__]. *)
Definition handle_response
    (response additional_content : gmap string value)
  : result (gmap string value) :=
  SiteAdapter.handle_response key_translator translator_functions
    response additional_content.

(** [pattern.findall(s)] for the pattern of [deploy_resource], compiled
    with [re.MULTILINE]: a line start, the words [Submitted batch job],
    a space, and a group of as many digits as follow.  The result lists
    the digit groups of all matches, left to right.  With [MULTILINE]
    the anchor matches at the start of the string and right after every
    newline; [bol] says whether the current position is such a place.
    A match contains no newline, so after a match the scan may go on
    character by character. *)
Fixpoint findall_from (bol : bool) (s : string) : list string :=
  match s with
  | EmptyString => []
  | String c rest =>
      let here :=
        if bol then
          match strip_prefix "Submitted batch job " s with
          | Some tail => [take_digits tail]
          | None => []
          end
        else [] in
      here ++ findall_from (Ascii.eqb c newline) rest
  end.

Definition findall (s : string) : list string := findall_from true s.

Definition request_command (a : SlurmAdapter) : string :=
  "sbatch -p " ++ Partition a ++ " "
  ++ "-N 1 -n " ++ Cores a ++ " "
  ++ "--mem=" ++ Memory a ++ "gb "
  ++ "-t " ++ Walltime a ++ " "
  ++ "--export=SLURM_Walltime=" ++ Walltime a ++ " "
  ++ startup_command a.

(** [SlurmAdapter.deploy_resource]. *)
Definition deploy_resource (env : Env) (a : SlurmAdapter)
  : M (gmap string value) :=
  result <- run_command env (request_command a) ;;
  match findall (stdout result) with
  | [] => raise (fresh IndexError)
  | group :: _ =>
      match int_of_str group with
      | None => raise (fresh ValueError)
      | Some remote_resource_uuid =>
          created <- now env ;;
          updated <- now env ;;
          update_attributes
            [("remote_resource_uuid", VInt remote_resource_uuid);
             ("created", VDatetime created);
             ("updated", VDatetime updated);
             ("drone_uuid",
              VStr (drone_uuid a (str_of_int remote_resource_uuid)));
             ("resource_status", VStatus Booting)] ;;;
          read_attributes
      end
  end.

(** The handler of [except KeyError] in [resource_status]: either the
    transient failure, or the record that stands in for the job. *)
Definition unknown_handle (key_error : exn) (resource_uuid : value)
  : M (gmap string value) :=
  cache <- read_cache ;;
  attrs <- read_attributes ;;
  match attrs !! "created" with
  | None => raise (raise_in_handler AttributeError key_error)
  | Some (VDatetime created) =>
      if (last_update cache - created <? 0)%Z
      then raise (raise_in_handler TardisResourceStatusUpdateFailed key_error)
      else ret (<["State" := VStr "COMPLETED"]>
                  (<["JobID" := resource_uuid]> ∅))
  | Some _ => raise (raise_in_handler TypeError key_error)
  end.

(** [SlurmAdapter.resource_status]. *)
Definition resource_status (env : Env) (a : SlurmAdapter)
  : M (gmap string value) :=
  await_update_status env ;;;
  resource_uuid <- getattr "remote_resource_uuid" ;;
  cache <- read_cache ;;
  resource_status <-
    match data cache !! py_str resource_uuid with
    | Some row => ret row
    | None => unknown_handle (fresh KeyError) resource_uuid
    end ;;
  updated <- now env ;;
  update_attributes [("updated", VDatetime updated)] ;;;
  attrs <- read_attributes ;;
  translated <- lift (handle_response resource_status ∅) ;;
  ret (translated ∪ attrs).

(** [SlurmAdapter.terminate_resource]. *)
Definition terminate_resource (env : Env) (a : SlurmAdapter)
  : M (gmap string value) :=
  resource_uuid <- getattr "remote_resource_uuid" ;;
  run_command env ("scancel " ++ py_str resource_uuid) ;;;
  updated <- now env ;;
  update_attributes
    [("resource_status", VStatus Stopped); ("updated", VDatetime updated)] ;;;
  resource_uuid' <- getattr "remote_resource_uuid" ;;
  attrs <- read_attributes ;;
  lift (handle_response (<["JobId" := resource_uuid']> ∅) attrs).

(** [SlurmAdapter.stop_resource]. *)
Definition stop_resource (env : Env) (a : SlurmAdapter)
  : M (gmap string value) :=
  terminate_resource env a.

(** What the [except] clauses of [handle_exceptions] make of an
    exception that leaves the body, tried in the order of the source. *)
Definition translate_exception (e : exn) : exn :=
  match exn_cls e with
  | CommandExecutionFailure =>
      raise_in_handler TardisResourceStatusUpdateFailed e
  | TardisResourceStatusUpdateFailed => e
  | TimeoutError => raise_from TardisTimeout e
  | BaseExceptionOnly _ => e
  | _ => raise_from TardisError e
  end.

(** [with self.handle_exceptions(): body]. *)
Definition handle_exceptions {A} (body : M A) : M A :=
  fun w =>
    match body w with
    | (Ok a, w') => (Ok a, w')
    | (Raise e, w') => (Raise (translate_exception e), w')
    end.

End Slurm.

(** ** [tardis/adapter/exoscale.py] *)

Module Exoscale.
Import Effects.

(** The two [except] clauses of [ExoscaleAdapter.handle_exceptions];
    an exception that matches neither leaves the [with] block as it
    is. *)
Definition translate_exception (e : exn) : exn :=
  match exn_cls e with
  | TimeoutError => raise_from TardisTimeout e
  | CloudStackClientException => raise_from TardisError e
  | _ => e
  end.

(** [with self.handle_exceptions(): body]. *)
Definition handle_exceptions {A} (body : M A) : M A :=
  fun w =>
    match body w with
    | (Ok a, w') => (Ok a, w')
    | (Raise e, w') => (Raise (translate_exception e), w')
    end.

End Exoscale.

(** ** [tardis/resources/drone.py] *)

Module DroneModel.
Import PyValue.

(** What [bool(v)] is, for the [or] of [__init__]. *)
Definition truthy (v : value) : bool :=
  match v with
  | VNone => false
  | VInt z => negb (z =? 0)%Z
  | VStr s => negb (String.eqb s "")
  | VDatetime _ => true
  | VStatus _ => true
  end.

(** The part of the site agent that the drone reads. *)
Record SiteAgent : Type := {
  site_name : string;
}.

Section Drone.

(** The state objects ([dronestates.py]), the observers and the batch
    system agent are given from outside. *)
Context {State Observer BatchSystemAgent : Type}.
Context {Observer_eq_dec : EqDecision Observer}.

Record Drone : Type := {
  _site_agent : SiteAgent;
  _batch_system_agent : BatchSystemAgent;
  _observers : list Observer;
  _state : State;
  id : value;
  dns_name : string;
  _allocation : float;
  _demand : float;
  _supply : float;
  _utilisation : float;
}.

(** [Drone.__init__].  [uuid4] is what [uuid.uuid4()] would return,
    rendered as a string; it is used when [drone_id] is missing or
    falsy. *)
Definition init (site_agent : SiteAgent)
    (batch_system_agent : BatchSystemAgent)
    (observers : option (list Observer)) (drone_id : option value)
    (state : State) (uuid4 : string) : Drone :=
  let observers' :=
    match observers with
    | Some (o :: os) => o :: os
    | Some [] | None => []
    end in
  let id' :=
    match drone_id with
    | Some v => if truthy v then v else VStr uuid4
    | None => VStr uuid4
    end in
  {| _site_agent := site_agent;
     _batch_system_agent := batch_system_agent;
     _observers := observers';
     _state := state;
     id := id';
     dns_name := "tardis" ++ "-" ++ py_str id' ++ "." ++ site_name site_agent;
     _allocation := 0%float;
     _demand := 0%float;
     _supply := 0%float;
     _utilisation := 0%float |}.

(** The read-only properties. *)
Definition allocation (d : Drone) : float := _allocation d.
Definition demand (d : Drone) : float := _demand d.
Definition supply (d : Drone) : float := _supply d.
Definition utilisation (d : Drone) : float := _utilisation d.
Definition site_agent (d : Drone) : SiteAgent := _site_agent d.
Definition state (d : Drone) : State := _state d.

(** [drone.demand = value]. *)
Definition set_demand (d : Drone) (v : float) : Drone :=
  {| _site_agent := _site_agent d;
     _batch_system_agent := _batch_system_agent d;
     _observers := _observers d;
     _state := _state d;
     id := id d;
     dns_name := dns_name d;
     _allocation := _allocation d;
     _demand := v;
     _supply := _supply d;
     _utilisation := _utilisation d |}.

Definition with_observers (d : Drone) (os : list Observer) : Drone :=
  {| _site_agent := _site_agent d;
     _batch_system_agent := _batch_system_agent d;
     _observers := os;
     _state := _state d;
     id := id d;
     dns_name := dns_name d;
     _allocation := _allocation d;
     _demand := _demand d;
     _supply := _supply d;
     _utilisation := _utilisation d |}.

Definition with_state (d : Drone) (s : State) : Drone :=
  {| _site_agent := _site_agent d;
     _batch_system_agent := _batch_system_agent d;
     _observers := _observers d;
     _state := s;
     id := id d;
     dns_name := dns_name d;
     _allocation := _allocation d;
     _demand := _demand d;
     _supply := _supply d;
     _utilisation := _utilisation d |}.

(** [register_observers]: [self._observers.append(agent)]. *)
Definition register_observers (d : Drone) (agent : Observer) : Drone :=
  with_observers d (_observers d ++ [agent])%list.

(** [list.remove(x)]: the first occurrence goes, [ValueError] if there
    is none. *)
Fixpoint list_remove (x : Observer) (l : list Observer)
  : option (list Observer) :=
  match l with
  | [] => None
  | y :: l' =>
      if decide (y = x) then Some l'
      else match list_remove x l' with
           | Some r => Some (y :: r)
           | None => None
           end
  end.

(** [remove_observers]: [self._observers.remove(agent)]. *)
Definition remove_observers (d : Drone) (agent : Observer) : result Drone :=
  match list_remove agent (_observers d) with
  | Some os => Ok (with_observers d os)
  | None => Raise (fresh ValueError)
  end.

(** Every call [observer.notify(drone)] that has happened, oldest
    first, with the drone as it was when the call was made. *)
Definition NotifyLog : Type := list (Observer * Drone).

(** A generator object: the body of a generator function that has been
    called but not run.  Nothing of the body happens before the object
    is iterated; [exhaust] is what iterating it to its end does. *)
Inductive Generator : Type :=
| Suspended (body : NotifyLog -> NotifyLog).

Definition exhaust (g : Generator) (log : NotifyLog) : NotifyLog :=
  let 'Suspended body := g in body log.

(** [notify_observers]: its body contains [yield from], so a call
    builds a generator object whose body, once iterated, calls [notify]
    on every observer in turn. *)
Definition notify_observers (d : Drone) : Generator :=
  Suspended
    (fun log =>
       fold_left (fun (log : NotifyLog) observer =>
                    (log ++ [(observer, d)])%list)
                 (_observers d) log).

(** [drone.state = state]: the new state is stored, and
    [self.notify_observers()] is called as a statement; the generator
    object it returns is dropped without being iterated. *)
Definition set_state (d : Drone) (s : State) (log : NotifyLog)
  : Drone * NotifyLog :=
  let d' := with_state d s in
  let _generator := notify_observers d' in
  (d', log).

(** What a state object may do with the drone it is handed in
    [state.run(drone)]: use its public interface. *)
Inductive Action : Type :=
| SetDemand (v : float)
| SetState (s : State)
| RegisterObserver (agent : Observer)
| RemoveObserver (agent : Observer)
| IterateNotifications.

Definition perform (act : Action) (d : Drone) (log : NotifyLog)
  : result unit * Drone * NotifyLog :=
  match act with
  | SetDemand v => (Ok tt, set_demand d v, log)
  | SetState s => let '(d', log') := set_state d s log in (Ok tt, d', log')
  | RegisterObserver agent => (Ok tt, register_observers d agent, log)
  | RemoveObserver agent =>
      match remove_observers d agent with
      | Ok d' => (Ok tt, d', log)
      | Raise e => (Raise e, d, log)
      end
  | IterateNotifications => (Ok tt, d, exhaust (notify_observers d) log)
  end.

Fixpoint perform_all (acts : list Action) (d : Drone) (log : NotifyLog)
  : result unit * Drone * NotifyLog :=
  match acts with
  | [] => (Ok tt, d, log)
  | act :: rest =>
      match perform act d log with
      | (Ok _, d', log') => perform_all rest d' log'
      | (Raise e, d', log') => (Raise e, d', log')
      end
  end.

(** [Drone.run], for [fuel] rounds of its endless loop:
    [await self.state.run(self)] and a sleep.  [state_run s d] is what
    the state object [s] does with the drone in one call. *)
Fixpoint run (state_run : State -> Drone -> list Action) (fuel : nat)
    (d : Drone) (log : NotifyLog) : result unit * Drone * NotifyLog :=
  match fuel with
  | O => (Ok tt, d, log)
  | S fuel' =>
      match perform_all (state_run (_state d) d) d log with
      | (Ok _, d', log') => run state_run fuel' d' log'
      | (Raise e, d', log') => (Raise e, d', log')
      end
  end.

End Drone.

Arguments Drone : clear implicits.
Arguments Action : clear implicits.
Arguments Generator : clear implicits.
Arguments NotifyLog : clear implicits.

(** The drone and the log that an operation leaves behind. *)
Definition drone_after {State Observer BatchSystemAgent R : Type}
    (x : R * Drone State Observer BatchSystemAgent
         * NotifyLog State Observer BatchSystemAgent)
  : Drone State Observer BatchSystemAgent := x.1.2.

Definition log_after {State Observer BatchSystemAgent R : Type}
    (x : R * Drone State Observer BatchSystemAgent
         * NotifyLog State Observer BatchSystemAgent)
  : NotifyLog State Observer BatchSystemAgent := x.2.

(** The three metrics that have no setter. *)
Definition fixed_metrics {State Observer BatchSystemAgent : Type}
    (d : Drone State Observer BatchSystemAgent) : float * float * float :=
  (allocation d, supply d, utilisation d).

(** What an operation must leave alone for the name and the metrics
    without setter to stay what they are. *)
Definition same_identity {State Observer BatchSystemAgent : Type}
    (d d' : Drone State Observer BatchSystemAgent) : Prop :=
  id d' = id d /\ dns_name d' = dns_name d
  /\ _site_agent d' = _site_agent d
  /\ fixed_metrics d' = fixed_metrics d.

End DroneModel.

(** ** The status cache *)

Module StatusCache.

(** Modelled from the spec: the class [AsyncCacheMap]
    ([utilities/asynccachemap.py]), which the Slurm adapter builds with
    [max_age = StatusUpdate * 60], is not among the sources.  The cache
    is described as follows.  [get(handle)]: if the last successful
    refresh is younger than [T], return the cached snapshot for the
    handle, or "unknown" if it is absent from the last batch; otherwise
    trigger exactly one refresh and have all concurrent callers await
    its single result.  If the bulk query fails, the stale snapshot (if
    any) remains available and is returned with a "stale" flag; if no
    prior snapshot exists, the failure propagates to all waiting
    callers.

    Callers run concurrently, so the cache is a transition system over
    events: a caller calls [get] at some time; the bulk query that is
    in flight comes back with a batch, or fails.  The time recorded for
    a successful refresh lies between the issue of the query and its
    return. *)

Inductive Answer : Type :=
| Snapshot (stale : bool) (status : option ResourceStatus)
| Failure (e : exn).

Inductive Event : Type :=
| Get (caller : nat) (handle : string) (at_time : Z)
| RefreshSucceeded (at_time : Z) (observed_at : Z)
    (batch : gmap string ResourceStatus)
| RefreshFailed (at_time : Z) (e : exn).

Definition event_time (ev : Event) : Z :=
  match ev with
  | Get _ _ t => t
  | RefreshSucceeded t _ _ => t
  | RefreshFailed t _ => t
  end.

Record Cache : Type := {
  clock : option Z;
  snapshot : option (gmap string ResourceStatus);
  lastRefreshAt : option Z;
  in_flight : option Z;
  waiting : list (nat * string);
  bulk_queries : list Z;
  answers : list (nat * Answer);
}.

(** A cache that has never been refreshed. *)
Definition empty : Cache :=
  {| clock := None; snapshot := None; lastRefreshAt := None;
     in_flight := None; waiting := []; bulk_queries := [];
     answers := [] |}.

(** "The last successful refresh is younger than [T]". *)
Definition is_fresh (T : Z) (c : Cache) (t : Z) : bool :=
  match lastRefreshAt c with
  | Some r => (t - r <? T)%Z
  | None => false
  end.

Definition not_before (c : Cache) (t : Z) : bool :=
  match clock c with
  | Some t0 => (t0 <=? t)%Z
  | None => true
  end.

Definition lookup_status (batch : gmap string ResourceStatus)
    (stale : bool) (w : nat * string) : nat * Answer :=
  (w.1, Snapshot stale (batch !! w.2)).

(** One event; [None] when the event cannot happen in this state: time
    does not run backwards, a query returns only while one is in
    flight, and a refresh is recorded no earlier than its query was
    issued and no later than it returned. *)
Definition step (T : Z) (c : Cache) (ev : Event) : option Cache :=
  if negb (not_before c (event_time ev)) then None else
  match ev with
  | Get caller handle t =>
      if is_fresh T c t then
        Some {| clock := Some t; snapshot := snapshot c;
                lastRefreshAt := lastRefreshAt c;
                in_flight := in_flight c; waiting := waiting c;
                bulk_queries := bulk_queries c;
                answers :=
                  (answers c ++
                   [(caller,
                     Snapshot false
                       (default ∅ (snapshot c) !! handle))])%list |}
      else
        match in_flight c with
        | Some _ =>
            Some {| clock := Some t; snapshot := snapshot c;
                    lastRefreshAt := lastRefreshAt c;
                    in_flight := in_flight c;
                    waiting := (waiting c ++ [(caller, handle)])%list;
                    bulk_queries := bulk_queries c;
                    answers := answers c |}
        | None =>
            Some {| clock := Some t; snapshot := snapshot c;
                    lastRefreshAt := lastRefreshAt c;
                    in_flight := Some t;
                    waiting := [(caller, handle)];
                    bulk_queries := t :: bulk_queries c;
                    answers := answers c |}
        end
  | RefreshSucceeded t observed_at batch =>
      match in_flight c with
      | Some issued =>
          if (issued <=? observed_at)%Z && (observed_at <=? t)%Z then
            Some {| clock := Some t; snapshot := Some batch;
                    lastRefreshAt := Some observed_at;
                    in_flight := None; waiting := [];
                    bulk_queries := bulk_queries c;
                    answers :=
                      (answers c
                       ++ map (lookup_status batch false) (waiting c))%list |}
          else None
      | None => None
      end
  | RefreshFailed t e =>
      match in_flight c with
      | Some _ =>
          Some {| clock := Some t; snapshot := snapshot c;
                  lastRefreshAt := lastRefreshAt c;
                  in_flight := None; waiting := [];
                  bulk_queries := bulk_queries c;
                  answers :=
                    (answers c
                     ++ match snapshot c with
                        | Some old => map (lookup_status old true) (waiting c)
                        | None => map (fun w => (w.1, Failure e)) (waiting c)
                        end)%list |}
      | None => None
      end
  end.

(** A whole history of events. *)
Fixpoint run (T : Z) (c : Cache) (evs : list Event) : option Cache :=
  match evs with
  | [] => Some c
  | ev :: rest =>
      match step T c ev with
      | Some c' => run T c' rest
      | None => None
      end
  end.

Definition is_failure (ev : Event) : bool :=
  match ev with
  | RefreshFailed _ _ => true
  | _ => false
  end.

(** The bulk queries issued in the window of length [T] that starts at
    [a]. *)
Definition queries_in_window (T a : Z) (c : Cache) : list Z :=
  filter (fun t => (a <= t)%Z /\ (t < a + T)%Z) (bulk_queries c).

(** Issue times, latest first, any two neighbours at least [T] apart. *)
Fixpoint spaced (T : Z) (l : list Z) : Prop :=
  match l with
  | t2 :: (t1 :: _) as rest => (t1 + T <= t2)%Z /\ spaced T rest
  | _ => True
  end.

End StatusCache.

(** ** Concrete sites, used to run the definitions *)

Module Scenario.
Import PyStr PyValue Effects.

Definition adapter : Slurm.SlurmAdapter :=
  {| Slurm.machine_type := "m1.large";
     Slurm.site_name := "cluster";
     Slurm.startup_command := "pilot.sh";
     Slurm.Partition := "normal";
     Slurm.Walltime := "60";
     Slurm.Cores := "8";
     Slurm.Memory := "16";
     Slurm.StatusUpdate := 1;
     Slurm.drone_uuid := fun uuid => "cluster-" ++ uuid |}.

Definition starts_with (p s : string) : bool :=
  match strip_prefix p s with Some _ => true | None => false end.

Definition command_failed : exn := fresh CommandExecutionFailure.

(** A scheduler that accepts every submission as job 4761849, and that
    knows a job until it has been cancelled once: cancelling it again
    fails. *)
Definition scheduler (history : list string) (cmd : string)
  : result CommandResult :=
  if starts_with "sbatch " cmd then
    Ok {| stdout := "Submitted batch job 4761849" ++ String newline "";
          stderr := ""; exit_code := 0 |}
  else if starts_with "scancel " cmd then
    if bool_decide (cmd ∈ history) then Raise command_failed
    else Ok {| stdout := ""; stderr := ""; exit_code := 0 |}
  else Raise command_failed.

(** The clock advances by one second per reading, from second 100. *)
Definition clock (n : nat) : Z := (100 + Z.of_nat n) * 1000000.

(** A site whose cache needs no refresh. *)
Definition env : Env :=
  {| now_at := clock;
     executor := scheduler;
     update_status := fun s => (Ok tt, s) |}.

Definition cache_at (t : Z) (rows : list (string * gmap string value))
  : AsyncCacheMap :=
  {| data := list_to_map rows; last_update := t |}.

Definition world (cache : AsyncCacheMap) (attrs : list (string * value))
  : World :=
  {| site := {| ticks := 0; commands := []; slurm_status := cache |};
     resource_attributes := list_to_map attrs |}.

(** A resource deployed as job 4761849 at second 50. *)
Definition deployed : list (string * value) :=
  [("remote_resource_uuid", VInt 4761849);
   ("created", VDatetime 50000000);
   ("updated", VDatetime 50000000);
   ("drone_uuid", VStr "cluster-4761849");
   ("resource_status", VStatus Booting)].

(** The world after the deployed resource has been terminated once, at
    second 100. *)
Definition terminated_once : World :=
  {| site := {| ticks := 1; commands := ["scancel 4761849"];
                slurm_status := cache_at 0 [] |};
     resource_attributes :=
       <["updated" := VDatetime 100000000]>
         (<["resource_status" := VStatus Stopped]> (list_to_map deployed)) |}.

(** A drone with one observer, number 7; states are named by strings. *)
Definition drone : DroneModel.Drone string nat unit :=
  DroneModel.init {| DroneModel.site_name := "cluster" |} tt
    (Some [7%nat]) (Some (VStr "0a1b")) "RequestedState" "unused".

End Scenario.

(** ** [slurm_status_updater] ([tardis/adapters/sites/slurm.py]) *)

Module SlurmStatusUpdater.
Import PyStr PyValue.

(** [sep.join(l)]. *)
Fixpoint join (sep : string) (l : list string) : string :=
  match l with
  | [] => ""
  | [x] => x
  | x :: rest => x ++ sep ++ join sep rest
  end.

(** [attributes = dict(JobId="%A", Host="%N", State="%T")]. *)
Definition attributes : list (string * string) :=
  [("JobId", "%A"); ("Host", "%N"); ("State", "%T")].

Definition attributes_string : string := join "|" attributes.*2.

Definition double_quote : string := String (ascii_of_nat 34) "".

(** The listing command: [squeue -o], the format in double quotes, and
    the options [-h -t all]. *)
Definition cmd : string :=
  "squeue -o " ++ double_quote ++ attributes_string ++ double_quote
  ++ " -h -t all".

(** One round of the [for] loop: the state of the row is stripped and
    the row is filed under its job id.  A row without one of the two
    keys raises [KeyError]; a state that is no string has no [strip].
    The batch is keyed by strings: a row whose job id is no string
    would sit under a key that no string looks up, and is not kept. *)
Definition store_row (row : gmap string value)
    (slurm_resource_status : gmap string (gmap string value))
  : result (gmap string (gmap string value)) :=
  match row !! "State" with
  | None => Raise (fresh KeyError)
  | Some (VStr state) =>
      let row' := <["State" := VStr (strip state)]> row in
      match row' !! "JobId" with
      | None => Raise (fresh KeyError)
      | Some (VStr job_id) => Ok (<[job_id := row']> slurm_resource_status)
      | Some _ => Ok slurm_resource_status
      end
  | Some _ => Raise (fresh AttributeError)
  end.

Fixpoint store_rows (rows : list (gmap string value))
    (slurm_resource_status : gmap string (gmap string value))
  : result (gmap string (gmap string value)) :=
  match rows with
  | [] => Ok slurm_resource_status
  | row :: rest =>
      match store_row row slurm_resource_status with
      | Ok d => store_rows rest d
      | Raise e => Raise e
      end
  end.

(** [slurm_status_updater(executor)], as an effect on the site.
    [htcondor_csv_parser] ([utilities/utils.py]) is not among the
    sources; it is taken as given, applied to the output, the field
    names and the delimiter.  A failure of the command is logged and
    raised again. *)
Definition slurm_status_updater
    (htcondor_csv_parser :
       string -> list string -> string -> list (gmap string value))
    (env : Env) (s : Site)
  : result (gmap string (gmap string value)) * Site :=
  let s' := {| ticks := ticks s; commands := cmd :: commands s;
               slurm_status := slurm_status s |} in
  match executor env (commands s) cmd with
  | Raise e => (Raise e, s')
  | Ok slurm_status =>
      (store_rows
         (htcondor_csv_parser (stdout slurm_status) attributes.*1 "|") ∅,
       s')
  end.

(** A row as the loop needs it: both keys present, both strings. *)
Definition well_formed (row : gmap string value) : Prop :=
  exists job_id state,
    row !! "JobId" = Some (VStr job_id) /\ row !! "State" = Some (VStr state).

Definition job_id_of (row : gmap string value) : string :=
  match row !! "JobId" with Some (VStr j) => j | _ => "" end.

Definition stripped (row : gmap string value) : gmap string value :=
  match row !! "State" with
  | Some (VStr state) => <["State" := VStr (strip state)]> row
  | _ => row
  end.

End SlurmStatusUpdater.

(** ** The operations of [tardis/adapter/exoscale.py] *)

Module ExoscaleAdapter.
Import PyValue.

(** What the response holds under [virtualmachine]: one machine, or a
    list of machines; a machine is a dictionary. *)
Inductive virtualmachine : Type :=
| Machine (m : gmap string value)
| Machines (l : list (gmap string value)).

(** [translator = dict(resource_id='id', dns_name='name',
    created='created', resource_status='state', updated='created')],
    in the order of its items. *)
Definition translator : list (string * string) :=
  [("resource_id", "id"); ("dns_name", "name"); ("created", "created");
   ("resource_status", "state"); ("updated", "created")].

(** The loop [translated_response[translated_key] = response[key]]. *)
Fixpoint translate (items : list (string * string))
    (response translated_response : gmap string value)
  : result (gmap string value) :=
  match items with
  | [] => Ok translated_response
  | (translated_key, key) :: rest =>
      match response !! key with
      | Some v =>
          translate rest response (<[translated_key := v]> translated_response)
      | None => Raise (fresh KeyError)
      end
  end.

(** [ExoscaleAdapter.handle_response]. *)
Definition handle_response (response : gmap string virtualmachine)
  : result (gmap string value) :=
  match response !! "virtualmachine" with
  | None => Raise (fresh KeyError)
  | Some (Machines []) => Raise (fresh IndexError)
  | Some (Machines (m :: _)) => translate translator m ∅
  | Some (Machine m) => translate translator m ∅
  end.

(** A call of the CloudStack client. *)
Inductive ClientCall : Type :=
| deployVirtualMachine (name : string) (kwargs : gmap string value)
| listVirtualMachines (id : value)
| destroyVirtualMachine (id : value).

(** The adapter: its machine type, the machine type configurations of
    the site, the base-class method [dns_name], and the client, which
    answers a call in the light of the calls made before (latest
    first). *)
Record ExoscaleAdapter : Type := {
  _machine_type : string;
  _site_name : string;
  MachineTypeConfiguration : gmap string (gmap string value);
  dns_name : string -> string;
  cloud_stack_client :
    list ClientCall -> ClientCall -> result (gmap string virtualmachine);
}.

(** The calls made so far are the state. *)
Definition call (a : ExoscaleAdapter) (c : ClientCall)
    (calls : list ClientCall)
  : result (gmap string virtualmachine) * list ClientCall :=
  (cloud_stack_client a calls c, c :: calls).

(** [ExoscaleAdapter.deploy_resource]: the name is computed, the
    configuration of the machine type is looked up, and the two are
    passed as keyword arguments; a configuration that has a [name] of
    its own gives the call two values for one keyword. *)
Definition deploy_resource (a : ExoscaleAdapter) (unique_id : string)
    (calls : list ClientCall)
  : result (gmap string value) * list ClientCall :=
  let name := dns_name a unique_id in
  match MachineTypeConfiguration a !! _machine_type a with
  | None => (Raise (fresh KeyError), calls)
  | Some kwargs =>
      match kwargs !! "name" with
      | Some _ => (Raise (fresh TypeError), calls)
      | None =>
          match call a (deployVirtualMachine name kwargs) calls with
          | (Ok response, calls') => (handle_response response, calls')
          | (Raise e, calls') => (Raise e, calls')
          end
      end
  end.

(** [ExoscaleAdapter.resource_status]. *)
Definition resource_status (a : ExoscaleAdapter)
    (resource_attributes : gmap string value) (calls : list ClientCall)
  : result (gmap string value) * list ClientCall :=
  match resource_attributes !! "resource_id" with
  | None => (Raise (fresh AttributeError), calls)
  | Some id =>
      match call a (listVirtualMachines id) calls with
      | (Ok response, calls') => (handle_response response, calls')
      | (Raise e, calls') => (Raise e, calls')
      end
  end.

(** [ExoscaleAdapter.terminate_resource]: the response of the client is
    returned as it is. *)
Definition terminate_resource (a : ExoscaleAdapter)
    (resource_attributes : gmap string value) (calls : list ClientCall)
  : result (gmap string virtualmachine) * list ClientCall :=
  match resource_attributes !! "resource_id" with
  | None => (Raise (fresh AttributeError), calls)
  | Some id => call a (destroyVirtualMachine id) calls
  end.

(** [with self.handle_exceptions(): body], over the calls made. *)
Definition handle_exceptions {A}
    (body : list ClientCall -> result A * list ClientCall)
    (calls : list ClientCall) : result A * list ClientCall :=
  match body calls with
  | (Ok x, calls') => (Ok x, calls')
  | (Raise e, calls') => (Raise (Exoscale.translate_exception e), calls')
  end.

End ExoscaleAdapter.

#[global] Instance value_eq_dec : EqDecision value.
Proof. solve_decision. Defined.

(** ** [functools.lru_cache] *)

Module LruCache.

Section Cache.
Context {K V : Type}.
Context {K_eq_dec : EqDecision K}.

(** The cached results, most recently used first. *)
Definition cache : Type := list (K * V).

Fixpoint find (key : K) (c : cache) : option V :=
  match c with
  | [] => None
  | (k, v) :: rest => if decide (k = key) then Some v else find key rest
  end.

Fixpoint remove (key : K) (c : cache) : cache :=
  match c with
  | [] => []
  | (k, v) :: rest =>
      if decide (k = key) then rest else (k, v) :: remove key rest
  end.

(** A call of the wrapped function.  On a hit the result is moved to
    the front and returned, and the function is not called.  On a miss
    the function is called; an exception leaves the cache as it is; a
    result is stored at the front, the least recently used entry making
    room when [maxsize] entries are held. *)
Definition cached_call (maxsize : nat) (f : K -> result V) (key : K)
    (c : cache) : result V * cache :=
  match find key c with
  | Some v => (Ok v, (key, v) :: remove key c)
  | None =>
      match f key with
      | Raise e => (Raise e, c)
      | Ok v =>
          (Ok v,
           if (maxsize <=? length c)%nat
           then (key, v) :: removelast c
           else (key, v) :: c)
      end
  end.

(** Entries that are all right answers of [f]. *)
Definition agrees (f : K -> result V) (c : cache) : Prop :=
  forall k v, (k, v) ∈ c -> f k = Ok v.

End Cache.

End LruCache.

(** ** [tardis/rest/service.py] *)

Module RestService.

Section Service.

(** [DatabaseUser] ([rest/app/security.py]) is not among the sources;
    building one from the keyword arguments may fail. *)
Context {DatabaseUser : Type}.
Variable new_DatabaseUser : gmap string value -> result DatabaseUser.

Record RestService : Type := {
  _algorithm : string;
  _users : list (gmap string value);
  _config : gmap string value;
}.

(** [RestService.__init__]: [users or []], and a [log_config] of [None]
    unless one is given. *)
Definition init (algorithm : string)
    (users : option (list (gmap string value)))
    (fast_api_args : gmap string value) : RestService :=
  {| _algorithm := algorithm;
     _users := default [] users;
     _config :=
       match fast_api_args !! "log_config" with
       | Some _ => fast_api_args
       | None => <["log_config" := VNone]> fast_api_args
       end |}.

(** The body of [get_user]: the first user whose [user_name] is the one
    asked for; a user without a [user_name] met on the way raises
    [KeyError]. *)
Fixpoint find_user (users : list (gmap string value)) (user_name : string)
  : result (option DatabaseUser) :=
  match users with
  | [] => Ok None
  | user :: rest =>
      match user !! "user_name" with
      | None => Raise (fresh KeyError)
      | Some v =>
          if decide (v = VStr user_name)
          then result_bind (new_DatabaseUser user) (fun u => Ok (Some u))
          else find_user rest user_name
      end
  end.

(** [get_user], behind [lru_cache(maxsize=16)], for one service. *)
Definition get_user (service : RestService) (user_name : string)
    (c : LruCache.cache (K := string) (V := option DatabaseUser))
  : result (option DatabaseUser)
    * LruCache.cache (K := string) (V := option DatabaseUser) :=
  LruCache.cached_call 16 (find_user (_users service)) user_name c.

(** A sequence of lookups by one service object, each with the fields
    the object has at that time (its list of users may have been
    replaced in between; the key of the cache is the object and the
    name, not the contents of the object). *)
Fixpoint get_users (calls : list (RestService * string))
    (c : LruCache.cache (K := string) (V := option DatabaseUser))
  : list (result (option DatabaseUser))
    * LruCache.cache (K := string) (V := option DatabaseUser) :=
  match calls with
  | [] => ([], c)
  | (service, user_name) :: rest =>
      let '(r, c') := get_user service user_name c in
      let '(rs, c'') := get_users rest c' in
      (r :: rs, c'')
  end.

End Service.

(** A user that [get_user] passes by when it looks for [user_name]:
    it has a name, and another one. *)
Definition other_user (user_name : string) (user : gmap string value)
  : Prop :=
  exists v, user !! "user_name" = Some v /\ v <> VStr user_name.

End RestService.

(** ** What an operation may write *)

Module Frame.
Import Effects.

(** The computation changes the caller's dictionary at most under the
    given keys, however it ends. *)
Definition writes_only {A} (keys : list string) (m : M A) : Prop :=
  forall w r w', m w = (r, w') ->
    forall k, k ∉ keys ->
      resource_attributes w' !! k = resource_attributes w !! k.

End Frame.

(** ** Further concrete sites *)

Module Scenario2.
Import PyStr PyValue.

(** A scheduler that rejects every submission with a message, and
    cancels whatever it is asked to. *)
Definition rejecting (history : list string) (cmd : string)
  : result CommandResult :=
  Ok {| stdout := "sbatch: error: invalid partition specified";
        stderr := ""; exit_code := 0 |}.

Definition env : Env :=
  {| now_at := Scenario.clock;
     executor := rejecting;
     update_status := fun s => (Ok tt, s) |}.

(** The row that [squeue] reports for job 4761849, padded as the
    format of the listing pads it. *)
Definition row (state : string) : gmap string value :=
  list_to_map
    [("JobId", VStr "4761849"); ("Host", VStr "node17");
     ("State", VStr state)].

End Scenario2.

(** ** The submit pattern, line by line *)

Module Lines.
Import PyStr.

(** [s.split(newline)]: the lines of [s], without their newlines. *)
Fixpoint lines (s : string) : list string :=
  match s with
  | EmptyString => [EmptyString]
  | String c rest =>
      if Ascii.eqb c newline then EmptyString :: lines rest
      else match lines rest with
           | l :: ls => String c l :: ls
           | [] => [String c EmptyString]
           end
  end.

(** What the pattern captures in one line: the digits that follow the
    words at its start, if the line starts with them. *)
Definition line_match (l : string) : list string :=
  match strip_prefix "Submitted batch job " l with
  | Some tail => [take_digits tail]
  | None => []
  end.

End Lines.

(** ** A listing of two jobs *)

Module Scenario3.
Import PyStr PyValue.

Definition job (job_id host state : string) : gmap string value :=
  list_to_map
    [("JobId", VStr job_id); ("Host", VStr host); ("State", VStr state)].

(** Job 4761849 is listed twice, first pending and then running. *)
Definition rows : list (gmap string value) :=
  [job "4761849" "n/a" "PENDING   "; job "4761850" "node03" "COMPLETED ";
   job "4761849" "node17" "RUNNING   "].

(** A row without its state column. *)
Definition short_row : gmap string value :=
  list_to_map [("JobId", VStr "4761851")].

Definition listing (history : list string) (cmd : string)
  : result CommandResult :=
  Ok {| stdout := "4761849|n/a|PENDING"; stderr := ""; exit_code := 0 |}.

Definition env : Env :=
  {| now_at := Scenario.clock;
     executor := listing;
     update_status := fun s => (Ok tt, s) |}.

Definition site : Site :=
  {| ticks := 0; commands := []; slurm_status := Scenario.cache_at 0 [] |}.

End Scenario3.

(** ** A CloudStack site with one machine *)

Module Scenario4.
Import PyValue ExoscaleAdapter.

Definition machine : gmap string value :=
  list_to_map
    [("id", VStr "vm-1"); ("name", VStr "tardis-0a1b.exoscale");
     ("created", VStr "2018-03-01T12:00:00+0100"); ("state", VStr "Running");
     ("zonename", VStr "ch-gva-2")].

(** The client knows the machine [vm-1]: it lists it, lists nothing for
    any other id, and refuses to destroy what it does not know. *)
Definition client (calls : list ClientCall) (c : ClientCall)
  : result (gmap string virtualmachine) :=
  match c with
  | deployVirtualMachine _ _ => Ok {["virtualmachine" := Machine machine]}
  | listVirtualMachines id =>
      if decide (id = VStr "vm-1")
      then Ok {["virtualmachine" := Machines [machine]]}
      else Ok {["virtualmachine" := Machines []]}
  | destroyVirtualMachine id =>
      if decide (id = VStr "vm-1")
      then Ok {["virtualmachine" := Machine machine]}
      else Raise (fresh CloudStackClientException)
  end.

Definition adapter : ExoscaleAdapter :=
  {| _machine_type := "tiny";
     _site_name := "exoscale";
     MachineTypeConfiguration :=
       {["tiny" := {["serviceofferingid" := VStr "so-1"]}]};
     dns_name := fun unique_id => "tardis-" ++ unique_id ++ ".exoscale";
     cloud_stack_client := client |}.

End Scenario4.

(** ** A service whose users change *)

Module Scenario5.
Import PyValue.

Definition alice : gmap string value :=
  list_to_map [("user_name", VStr "alice"); ("scopes", VStr "user:get")].

(** The service before and after [alice] is added to its users; a
    database user is built from the keyword arguments as they are. *)
Definition before : RestService.RestService :=
  RestService.init "HS256" None ∅.

Definition after : RestService.RestService :=
  {| RestService._algorithm := RestService._algorithm before;
     RestService._users := [alice];
     RestService._config := RestService._config before |}.

Definition new_DatabaseUser (kwargs : gmap string value)
  : result (gmap string value) := Ok kwargs.

End Scenario5.

(** * Properties *)

(** ** Python strings *)

Section PyStrFacts.
Import PyStr.

Lemma digit_not_space c : is_digit c = true -> is_space c = false.
Proof.
  unfold is_digit, is_space. generalize (nat_of_ascii c). intros n H.
  apply andb_true_iff in H as [H1 H2].
  apply Nat.leb_le in H1. apply Nat.leb_le in H2.
  repeat match goal with
         | |- context [(?a <=? ?b)%nat] => destruct (Nat.leb_spec a b)
         | |- context [(?a =? ?b)%nat] => destruct (Nat.eqb_spec a b)
         end; simpl; try reflexivity; lia.
Qed.

Lemma take_digits_all_digits s : all_digits (take_digits s) = true.
Proof.
  induction s as [|c s IH]; simpl; [reflexivity|].
  destruct (is_digit c) eqn:Hc; simpl; [|reflexivity].
  now rewrite Hc.
Qed.

Lemma rev_string_rev_string s : forall a b,
  rev_string a (rev_string b s) = rev_string (s ++ a) b.
Proof.
  induction s as [|c s IH]; intros a b; simpl; [reflexivity|].
  now rewrite IH.
Qed.

Lemma append_empty_r (s : string) : s ++ "" = s.
Proof.
  induction s as [|c s IH]; [reflexivity|].
  change (String c (s ++ "") = String c s). now rewrite IH.
Qed.

Lemma all_digits_rev_string s : forall acc,
  all_digits (rev_string acc s) = all_digits acc && all_digits s.
Proof.
  induction s as [|c s IH]; intros acc; simpl.
  - now rewrite andb_true_r.
  - rewrite IH. simpl. destruct (is_digit c), (all_digits acc); reflexivity.
Qed.

Lemma rev_string_nonempty s : forall acc,
  s <> "" -> rev_string acc s <> "".
Proof.
  induction s as [|c s IH]; intros acc H; [congruence|]. simpl.
  destruct s as [|c' s']; [simpl; congruence|].
  apply IH. congruence.
Qed.

Lemma lstrip_digits s : all_digits s = true -> lstrip s = s.
Proof.
  destruct s as [|c s]; simpl; [reflexivity|]. intros H.
  apply andb_true_iff in H as [H _].
  now rewrite (digit_not_space _ H).
Qed.

Lemma strip_digits s : all_digits s = true -> strip s = s.
Proof.
  intros H. unfold strip, rstrip. rewrite (lstrip_digits _ H).
  rewrite lstrip_digits.
  - rewrite rev_string_rev_string. simpl. apply append_empty_r.
  - rewrite all_digits_rev_string. now rewrite H.
Qed.

Lemma literal_digits_all_digits s : forall prev,
  all_digits s = true -> (s <> "" \/ prev = true) ->
  literal_digits prev s = Some s.
Proof.
  induction s as [|c s IH]; intros prev H Hne; simpl.
  - destruct Hne as [Hne | ->]; [congruence | reflexivity].
  - simpl in H. apply andb_true_iff in H as [Hc Hs].
    rewrite Hc. rewrite (IH true Hs); [reflexivity | now right].
Qed.

Lemma is_digit_not_sign c :
  is_digit c = true -> Ascii.eqb c "-" = false /\ Ascii.eqb c "+" = false.
Proof.
  unfold is_digit. intros H. apply andb_true_iff in H as [H1 H2].
  apply Nat.leb_le in H1. apply Nat.leb_le in H2.
  split; apply Ascii.eqb_neq; intros ->; vm_compute in H1; lia.
Qed.

(** [int] of a non-empty run of digits is its decimal value. *)
Lemma int_of_str_digits s :
  all_digits s = true -> s <> "" -> int_of_str s = Some (digits_value 0 s).
Proof.
  intros H Hne. unfold int_of_str. rewrite (strip_digits _ H).
  destruct s as [|c s]; [congruence|].
  pose proof H as H'. simpl in H'. apply andb_true_iff in H' as [Hc Hs].
  destruct (is_digit_not_sign _ Hc) as [-> ->].
  rewrite Hc. rewrite (literal_digits_all_digits _ false H); [|now left].
  reflexivity.
Qed.

(** [int] of the empty capture is a [ValueError]. *)
Lemma int_of_str_empty : int_of_str "" = None.
Proof. reflexivity. Qed.

End PyStrFacts.

(** ** The Slurm status translator *)

Section SlurmTranslator.
Import Slurm.

Lemma state_codes_NoDup : NoDup state_codes.
Proof. apply (bool_decide_unpack _). vm_compute. reflexivity. Qed.

Lemma translate_state_listed s st :
  (s, st) ∈ state_translator -> translate_state s = st.
Proof.
  intros H. unfold translate_state.
  rewrite (elem_of_list_to_map_1 _ _ _ state_codes_NoDup H). reflexivity.
Qed.

Lemma translate_state_unlisted s :
  s ∉ state_codes -> translate_state s = Error.
Proof.
  intros H. unfold translate_state.
  rewrite (not_elem_of_list_to_map_1 _ _ H). reflexivity.
Qed.

Example translate_state_examples :
  translate_state "RUNNING" = Running
  /\ translate_state "COMPLETED" = Deleted
  /\ translate_state "PENDING" = Booting
  /\ translate_state "SUSPENDED" = Stopped
  /\ translate_state "FAILED" = Error
  /\ translate_state "running" = Error
  /\ translate_state "" = Error.
Proof. vm_compute. repeat split; reflexivity. Qed.

(** C9.  The Slurm status translator is total: whatever value the
    scheduler reports as job state, the translation returns a canonical
    status and does not raise; the table has 17 state codes, each
    translated as listed, and every string that is not one of them is
    translated to [Error]. *)
Theorem slurm_state_translation_total :
  (forall x : value, exists st, State_function x = Ok (VStatus st))
  /\ length state_codes = 17%nat
  /\ (forall s st, (s, st) ∈ state_translator ->
        State_function (VStr s) = Ok (VStatus st))
  /\ (forall s, s ∉ state_codes ->
        State_function (VStr s) = Ok (VStatus Error)).
Proof.
  repeat split.
  - intros [| z | s | us | st]; simpl; eauto.
  - intros s st H. simpl. now rewrite (translate_state_listed _ _ H).
  - intros s H. simpl. now rewrite (translate_state_unlisted _ H).
Qed.

Lemma slurm_state_translation_total_witness :
  (("RUNNING", Running) ∈ state_translator)
  /\ ("BOOT_FAIL" ∉ state_codes)
  /\ State_function (VStr "RUNNING") = Ok (VStatus Running)
  /\ State_function (VStr "BOOT_FAIL") = Ok (VStatus Error).
Proof.
  assert (H1 : ("RUNNING", Running) ∈ state_translator).
  { apply (bool_decide_unpack _). vm_compute. reflexivity. }
  assert (H2 : "BOOT_FAIL" ∉ state_codes).
  { apply (bool_decide_unpack _). vm_compute. reflexivity. }
  split; [exact H1|]. split; [exact H2|]. split.
  - exact (proj1 (proj2 (proj2 slurm_state_translation_total)) _ _ H1).
  - exact (proj2 (proj2 (proj2 slurm_state_translation_total)) _ H2).
Defined.

End SlurmTranslator.

(** ** The drone *)

Section DroneFacts.
Import PyValue DroneModel.
Context {State Observer BatchSystemAgent : Type}.
Context {Observer_eq_dec : EqDecision Observer}.

Abbreviation Drone := (DroneModel.Drone State Observer BatchSystemAgent).
Abbreviation NotifyLog :=
  (DroneModel.NotifyLog State Observer BatchSystemAgent).
Abbreviation Action := (DroneModel.Action State Observer).

Lemma same_identity_refl (d : Drone) : same_identity d d.
Proof. repeat split. Qed.

Lemma same_identity_trans (d1 d2 d3 : Drone) :
  same_identity d1 d2 -> same_identity d2 d3 -> same_identity d1 d3.
Proof.
  intros (A1 & A2 & A3 & A4) (B1 & B2 & B3 & B4).
  repeat split; congruence.
Qed.

Lemma perform_same_identity (act : Action) (d : Drone) (log : NotifyLog) :
  same_identity d (drone_after (perform act d log)).
Proof.
  destruct act as [v | s | agent | agent |]; simpl;
    try apply same_identity_refl; try (repeat split; fail).
  unfold remove_observers. destruct (list_remove agent (_observers d));
    simpl; repeat split.
Qed.

Lemma perform_all_same_identity (acts : list Action) :
  forall (d : Drone) (log : NotifyLog),
    same_identity d (drone_after (perform_all acts d log)).
Proof.
  induction acts as [|act acts IH]; intros d log; simpl.
  - apply same_identity_refl.
  - pose proof (perform_same_identity act d log) as H.
    destruct (perform act d log) as [[[u | e] d'] log']; simpl in *.
    + eapply same_identity_trans; [exact H | apply IH].
    + exact H.
Qed.

Lemma run_same_identity (state_run : State -> Drone -> list Action)
    (fuel : nat) :
  forall (d : Drone) (log : NotifyLog),
    same_identity d (drone_after (run state_run fuel d log)).
Proof.
  induction fuel as [|fuel IH]; intros d log; simpl.
  - apply same_identity_refl.
  - pose proof (perform_all_same_identity (state_run (_state d) d) d log) as H.
    destruct (perform_all (state_run (_state d) d) d log)
      as [[[u | e] d'] log']; simpl in *.
    + eapply same_identity_trans; [exact H | apply IH].
    + exact H.
Qed.

Lemma exhaust_notify_observers (d : Drone) (log : NotifyLog) :
  exhaust (notify_observers d) log
  = (log ++ map (fun observer => (observer, d)) (_observers d))%list.
Proof.
  simpl. generalize (_observers d) as l. intros l. revert log.
  induction l as [|o l IH]; intros log; simpl.
  - now rewrite app_nil_r.
  - rewrite IH. now rewrite <- app_assoc.
Qed.

(** C8.  The display name of a drone is fixed when the drone is built,
    as the text [tardis-], the drone's id, a dot and the site name of
    its site agent; nothing the drone does afterwards, in any number of
    rounds of [run], changes the name, the id or the site agent. *)
Theorem drone_dns_name_derived_at_construction
    (agent : SiteAgent) (batch : BatchSystemAgent)
    (observers : option (list Observer)) (drone_id : option value)
    (st : State) (uuid4 : string) :
  let d : Drone := init agent batch observers drone_id st uuid4 in
  dns_name d = "tardis-" ++ py_str (id d) ++ "." ++ site_name (site_agent d)
  /\ forall (state_run : State -> Drone -> list Action) (fuel : nat)
        (log : NotifyLog),
      let d' := drone_after (run state_run fuel d log) in
      dns_name d' = dns_name d /\ id d' = id d
      /\ site_agent d' = site_agent d.
Proof.
  intros d. split; [reflexivity|].
  intros state_run fuel log d'.
  destruct (run_same_identity state_run fuel d log) as (H1 & H2 & H3 & _).
  auto.
Qed.

(** C7.  The metrics [allocation], [supply] and [utilisation] start at
    0.0 (as does [demand]); the only setter is the one of [demand],
    which changes nothing else; and no operation of the drone (a state
    assignment, registering or removing an observer, iterating the
    notifications, any number of rounds of [run]) changes
    [allocation], [supply] or [utilisation]. *)
Theorem drone_metrics_not_mutated_by_lifecycle :
  (forall (agent : SiteAgent) (batch : BatchSystemAgent)
      (observers : option (list Observer)) (drone_id : option value)
      (st : State) (uuid4 : string),
      let d : Drone := init agent batch observers drone_id st uuid4 in
      allocation d = 0%float /\ demand d = 0%float
      /\ supply d = 0%float /\ utilisation d = 0%float)
  /\ (forall (d : Drone) (v : float),
        demand (set_demand d v) = v
        /\ fixed_metrics (set_demand d v) = fixed_metrics d)
  /\ (forall (act : Action) (d : Drone) (log : NotifyLog),
        fixed_metrics (drone_after (perform act d log)) = fixed_metrics d)
  /\ (forall (state_run : State -> Drone -> list Action) (fuel : nat)
        (d : Drone) (log : NotifyLog),
        fixed_metrics (drone_after (run state_run fuel d log))
        = fixed_metrics d).
Proof.
  split; [|split; [|split]].
  - intros. repeat split.
  - intros. split; reflexivity.
  - intros act d log. apply (perform_same_identity act d log).
  - intros state_run fuel d log. apply (run_same_identity state_run fuel d log).
Qed.

(** C2.  What the code does on [drone.state = s]: the state is stored
    and the call returns with the log of notifications unchanged, for
    the generator built by [notify_observers] is never iterated; had it
    been iterated, every registered observer would have been notified,
    in order, with the drone. *)
Theorem state_assignment_notifies_no_observer
    (d : Drone) (s : State) (log : NotifyLog) :
  set_state d s log = (with_state d s, log)
  /\ exhaust (notify_observers (with_state d s)) log
     = (log ++ map (fun observer => (observer, with_state d s))
                   (_observers d))%list.
Proof.
  split; [reflexivity|]. now rewrite exhaust_notify_observers.
Qed.

End DroneFacts.

(** The drone of the scenario has observer 7 registered; assigning a
    state leaves the log empty. *)
Example state_assignment_at_failing_input :
  DroneModel._observers Scenario.drone = [7%nat]
  /\ DroneModel.set_state Scenario.drone "BootingState" []
     = (DroneModel.with_state Scenario.drone "BootingState", [])
  /\ DroneModel.exhaust
       (DroneModel.notify_observers
          (DroneModel.with_state Scenario.drone "BootingState")) []
     = [(7%nat, DroneModel.with_state Scenario.drone "BootingState")].
Proof. repeat split. Qed.

Example drone_dns_name_example :
  DroneModel.dns_name Scenario.drone = "tardis-0a1b.cluster".
Proof. reflexivity. Qed.

(** ** The exception-translation boundary *)

Section ExceptionBoundary.
Import Effects.

(** The Slurm boundary turns a failed command into the transient
    status-update failure, and the Exoscale boundary lets it pass
    untranslated: neither makes a [TardisError] of it. *)
Lemma command_failure_not_translated_to_TardisError :
  ~ translates_as_specified Slurm.translate_exception
      (fresh CommandExecutionFailure)
  /\ ~ translates_as_specified Exoscale.translate_exception
        (fresh CommandExecutionFailure)
  /\ Slurm.translate_exception (fresh CommandExecutionFailure)
     = Exn TardisResourceStatusUpdateFailed None
         (Some (fresh CommandExecutionFailure))
  /\ Exoscale.translate_exception (fresh CommandExecutionFailure)
     = fresh CommandExecutionFailure.
Proof.
  repeat split; try (intros H; discriminate H).
Qed.

(** C3, amended.  A [with handle_exceptions()] block returns what its
    body returns and leaves the world as the body left it; when the
    body raises, the exception is translated by class.  In both
    adapters a [TimeoutError] becomes [TardisTimeout] with the original
    exception as cause.  In the Slurm adapter a
    [CommandExecutionFailure] becomes
    [TardisResourceStatusUpdateFailed] without cause, a
    [TardisResourceStatusUpdateFailed] passes unchanged, and every
    other [Exception] becomes [TardisError] with the original as cause.
    In the Exoscale adapter a [CloudStackClientException] becomes
    [TardisError] with the original as cause, and every other exception
    passes unchanged. *)
Theorem handle_exceptions_translation {A : Type} (body : M A) (w : World) :
  match body w with
  | (Ok a, w') =>
      Slurm.handle_exceptions body w = (Ok a, w')
      /\ Exoscale.handle_exceptions body w = (Ok a, w')
  | (Raise e, w') =>
      (exists e', Slurm.handle_exceptions body w = (Raise e', w')
         /\ match exn_cls e with
            | TimeoutError =>
                exn_cls e' = TardisTimeout /\ exn_cause e' = Some e
            | CommandExecutionFailure =>
                exn_cls e' = TardisResourceStatusUpdateFailed
                /\ exn_cause e' = None /\ exn_context e' = Some e
            | TardisResourceStatusUpdateFailed => e' = e
            | BaseExceptionOnly _ => e' = e
            | _ => exn_cls e' = TardisError /\ exn_cause e' = Some e
            end)
      /\ (exists e', Exoscale.handle_exceptions body w = (Raise e', w')
            /\ match exn_cls e with
               | TimeoutError =>
                   exn_cls e' = TardisTimeout /\ exn_cause e' = Some e
               | CloudStackClientException =>
                   exn_cls e' = TardisError /\ exn_cause e' = Some e
               | _ => e' = e
               end)
  end.
Proof.
  unfold Slurm.handle_exceptions, Exoscale.handle_exceptions.
  destruct (body w) as [[a | e] w']; [split; reflexivity|].
  split.
  - exists (Slurm.translate_exception e). split; [reflexivity|].
    unfold Slurm.translate_exception.
    destruct (exn_cls e); simpl; auto.
  - exists (Exoscale.translate_exception e). split; [reflexivity|].
    unfold Exoscale.translate_exception.
    destruct (exn_cls e); simpl; auto.
Qed.

End ExceptionBoundary.

(** ** Deploying a resource *)

Section Deploy.
Import PyStr PyValue Effects Slurm.

Lemma findall_from_unfold bol c s :
  findall_from bol (String c s)
  = ((if bol then
        match strip_prefix "Submitted batch job " (String c s) with
        | Some tail => [take_digits tail]
        | None => []
        end
      else []) ++ findall_from (Ascii.eqb c newline) s)%list.
Proof. reflexivity. Qed.

Lemma findall_from_all_digits s : forall bol group,
  group ∈ findall_from bol s -> all_digits group = true.
Proof.
  induction s as [|c s IH]; intros bol group H.
  - inversion H.
  - rewrite findall_from_unfold in H.
    apply elem_of_app in H as [H | H]; [|eauto].
    destruct bol; [|inversion H].
    destruct (strip_prefix "Submitted batch job " (String c s));
      [|inversion H].
    apply list_elem_of_singleton in H as ->. apply take_digits_all_digits.
Qed.

Example findall_examples :
  findall ("Submitted batch job 4761849" ++ String newline "") = ["4761849"]
  /\ findall ("sbatch: info" ++ String newline
              ("Submitted batch job 12 on cluster x" ++ String newline
               "Submitted batch job 13")) = ["12"; "13"]
  /\ findall " Submitted batch job 5" = []
  /\ findall "Submitted batch job x" = [""]
  /\ findall "Submitted batch job" = [].
Proof. vm_compute. repeat split; reflexivity. Qed.

(** The attributes written by a successful deployment. *)
Lemma deploy_resource_run env a w result group rest :
  executor env (commands (site w)) (request_command a) = Ok result ->
  findall (stdout result) = group :: rest ->
  group <> "" ->
  deploy_resource env a w
  = (let attrs :=
       <["resource_status" := VStatus Booting]>
       (<["drone_uuid" :=
            VStr (drone_uuid a (str_of_int (digits_value 0 group)))]>
       (<["updated" := VDatetime (now_at env (S (ticks (site w))))]>
       (<["created" := VDatetime (now_at env (ticks (site w)))]>
       (<["remote_resource_uuid" := VInt (digits_value 0 group)]>
          (resource_attributes w))))) in
     (Ok attrs,
      {| site := {| ticks := S (S (ticks (site w)));
                    commands := request_command a :: commands (site w);
                    slurm_status := slurm_status (site w) |};
         resource_attributes := attrs |})).
Proof.
  intros Hexec Hfind Hne.
  assert (Hd : all_digits group = true).
  { apply (findall_from_all_digits (stdout result) true).
    unfold findall in Hfind. rewrite Hfind. apply list_elem_of_here. }
  unfold deploy_resource, bind, run_command. rewrite Hexec. rewrite Hfind.
  rewrite (int_of_str_digits _ Hd Hne). reflexivity.
Qed.

(** C6.  A call of [deploy_resource] succeeds exactly when the submit
    command succeeds and the first line of its output that starts with
    [Submitted batch job] and a space is followed by at least one
    digit.  The attributes it then returns, which are the caller's
    dictionary after the update, hold as [remote_resource_uuid] the
    integer written by those digits, the status [Booting], and as
    [created] and [updated] the two readings of the clock taken during
    the call. *)
Theorem deploy_resource_returns_parsed_job_id env a w :
  (forall attrs w',
      deploy_resource env a w = (Ok attrs, w') ->
      exists result group rest,
        executor env (commands (site w)) (request_command a) = Ok result
        /\ findall (stdout result) = group :: rest
        /\ all_digits group = true /\ group <> ""
        /\ attrs !! "remote_resource_uuid"
           = Some (VInt (digits_value 0 group))
        /\ attrs !! "resource_status" = Some (VStatus Booting)
        /\ attrs !! "created"
           = Some (VDatetime (now_at env (ticks (site w))))
        /\ attrs !! "updated"
           = Some (VDatetime (now_at env (S (ticks (site w)))))
        /\ resource_attributes w' = attrs)
  /\ (forall result group rest,
        executor env (commands (site w)) (request_command a) = Ok result ->
        findall (stdout result) = group :: rest ->
        group <> "" ->
        exists attrs w', deploy_resource env a w = (Ok attrs, w')).
Proof.
  split.
  - intros attrs w' H.
    destruct (executor env (commands (site w)) (request_command a))
      as [result | e] eqn:Hexec.
    2:{ unfold deploy_resource, bind, run_command in H.
        rewrite Hexec in H. discriminate H. }
    destruct (findall (stdout result)) as [|group rest] eqn:Hfind.
    { unfold deploy_resource, bind, run_command in H.
      rewrite Hexec, Hfind in H. discriminate H. }
    assert (Hne : group <> "").
    { intros ->. unfold deploy_resource, bind, run_command in H.
      rewrite Hexec, Hfind in H. discriminate H. }
    assert (Hd : all_digits group = true).
    { apply (findall_from_all_digits (stdout result) true).
      unfold findall in Hfind. rewrite Hfind. apply list_elem_of_here. }
    rewrite (deploy_resource_run _ _ _ _ _ _ Hexec Hfind Hne) in H.
    injection H as <- <-.
    exists result, group, rest.
    split; [reflexivity|]. split; [exact Hfind|].
    split; [exact Hd|]. split; [exact Hne|].
    split; [by simplify_map_eq|]. split; [by simplify_map_eq|].
    split; [by simplify_map_eq|]. split; [by simplify_map_eq|].
    reflexivity.
  - intros result group rest Hexec Hfind Hne.
    rewrite (deploy_resource_run _ _ _ _ _ _ Hexec Hfind Hne). eauto.
Qed.

Lemma deploy_resource_returns_parsed_job_id_witness :
  exists attrs w',
    deploy_resource Scenario.env Scenario.adapter
      (Scenario.world (Scenario.cache_at 0 []) []) = (Ok attrs, w')
    /\ attrs !! "remote_resource_uuid" = Some (VInt 4761849)
    /\ attrs !! "resource_status" = Some (VStatus Booting)
    /\ attrs !! "created" = Some (VDatetime 100000000)
    /\ attrs !! "updated" = Some (VDatetime 101000000).
Proof.
  pose (w := Scenario.world (Scenario.cache_at 0 []) []).
  destruct (proj2 (deploy_resource_returns_parsed_job_id
                     Scenario.env Scenario.adapter w)
              {| stdout := "Submitted batch job 4761849" ++ String newline "";
                 stderr := ""; exit_code := 0 |}
              "4761849" [] eq_refl eq_refl ltac:(discriminate))
    as (attrs & w' & Hrun).
  exists attrs, w'. split; [exact Hrun|].
  destruct (proj1 (deploy_resource_returns_parsed_job_id
                     Scenario.env Scenario.adapter w) attrs w' Hrun)
    as (result & group & rest & Hexec & Hfind & _ & _ & H1 & H2 & H3 & H4 & _).
  injection Hexec as <-. injection Hfind as <- <-.
  repeat split; assumption.
Defined.

End Deploy.

(** ** Translating provider responses *)

Section HandleResponse.
Import PyStr PyValue Effects Slurm.

Lemma translator_functions_JobId :
  translator_functions !! "JobId" = Some JobId_function.
Proof. unfold translator_functions. by simplify_map_eq. Qed.

Lemma translator_functions_State :
  translator_functions !! "State" = Some State_function.
Proof. unfold translator_functions. by simplify_map_eq. Qed.

(** The response of [terminate_resource]: only [JobId] is present. *)
Lemma handle_response_JobId (v : value) (attrs : gmap string value) :
  handle_response (<["JobId" := v]> ∅) attrs
  = result_bind (py_int v)
      (fun z => Ok (attrs ∪ <["remote_resource_uuid" := VInt z]> ∅)).
Proof.
  unfold handle_response, SiteAdapter.handle_response, key_translator.
  cbn [SiteAdapter.translate_keys].
  rewrite lookup_insert_eq, translator_functions_JobId.
  cbn [default from_option id]. unfold id, JobId_function. cbv beta.
  destruct (py_int v) as [z | e] eqn:Hint; cbn [result_bind].
  - try (rewrite lookup_insert_ne by discriminate; rewrite lookup_empty).
    reflexivity.
  - assert (Hcls : exn_cls e = ValueError \/ exn_cls e = TypeError).
    { destruct v; simpl in Hint; try discriminate Hint;
        try (injection Hint as <-; auto).
      destruct (int_of_str s); [discriminate|]. injection Hint as <-. auto. }
    destruct Hcls as [-> | ->]; reflexivity.
Qed.

(** The record that [resource_status] puts in the place of a job that
    the batch does not list: its [JobID] key is not the [JobId] of the
    key translator, so only the state is translated. *)
Lemma handle_response_COMPLETED (v : value) :
  handle_response (<["State" := VStr "COMPLETED"]> (<["JobID" := v]> ∅)) ∅
  = Ok (<["resource_status" := VStatus Deleted]> ∅).
Proof.
  unfold handle_response, SiteAdapter.handle_response, key_translator.
  cbn [SiteAdapter.translate_keys].
  rewrite lookup_insert_ne by discriminate.
  rewrite lookup_insert_ne by discriminate. rewrite lookup_empty.
  rewrite lookup_insert_eq, translator_functions_State.
  cbn [default from_option id]. unfold id. cbv beta.
  cbn [State_function].
  replace (translate_state "COMPLETED") with Deleted by (vm_compute; reflexivity).
  cbn [result_bind]. now rewrite (left_id ∅ (∪)).
Qed.

End HandleResponse.

(** ** Terminating a resource *)

Section Terminate.
Import PyStr PyValue Effects Slurm.

Lemma terminate_resource_run env a w v r :
  resource_attributes w !! "remote_resource_uuid" = Some v ->
  executor env (commands (site w)) ("scancel " ++ py_str v) = Ok r ->
  terminate_resource env a w
  = (let attrs :=
       <["updated" := VDatetime (now_at env (ticks (site w)))]>
         (<["resource_status" := VStatus Stopped]> (resource_attributes w)) in
     (result_bind (py_int v)
        (fun z => Ok (attrs ∪ <["remote_resource_uuid" := VInt z]> ∅)),
      {| site := {| ticks := S (ticks (site w));
                    commands :=
                      ("scancel " ++ py_str v) :: commands (site w);
                    slurm_status := slurm_status (site w) |};
         resource_attributes := attrs |})).
Proof.
  intros Hv Hexec.
  unfold terminate_resource, bind, getattr, run_command, now,
    update_attributes, read_attributes, lift, with_site.
  cbn [site resource_attributes ticks commands slurm_status fold_left fst snd].
  rewrite Hv. rewrite Hexec.
  rewrite lookup_insert_ne by discriminate.
  rewrite lookup_insert_ne by discriminate. rewrite Hv.
  rewrite handle_response_JobId. reflexivity.
Qed.

Lemma terminate_resource_command_fails env a w v e :
  resource_attributes w !! "remote_resource_uuid" = Some v ->
  executor env (commands (site w)) ("scancel " ++ py_str v) = Raise e ->
  terminate_resource env a w
  = (Raise e,
     {| site := {| ticks := ticks (site w);
                   commands := ("scancel " ++ py_str v) :: commands (site w);
                   slurm_status := slurm_status (site w) |};
        resource_attributes := resource_attributes w |}).
Proof.
  intros Hv Hexec.
  unfold terminate_resource, bind, getattr, run_command, with_site.
  cbn [site resource_attributes ticks commands slurm_status].
  rewrite Hv. rewrite Hexec. reflexivity.
Qed.

(** C10.  When [terminate_resource] succeeds, the attributes it returns
    and the caller's dictionary as it leaves it both hold the status
    [Stopped] (not [Deleted]) and, as [updated], the reading of the
    clock taken during the call; the command that was run is [scancel]
    with the remote handle.  With an integer handle the call succeeds
    whenever the command does. *)
Theorem terminate_resource_sets_Stopped env a w :
  (forall attrs w',
      terminate_resource env a w = (Ok attrs, w') ->
      attrs !! "resource_status" = Some (VStatus Stopped)
      /\ attrs !! "updated"
         = Some (VDatetime (now_at env (ticks (site w))))
      /\ resource_attributes w' !! "resource_status"
         = Some (VStatus Stopped)
      /\ resource_attributes w' !! "updated"
         = Some (VDatetime (now_at env (ticks (site w))))
      /\ exists v,
           resource_attributes w !! "remote_resource_uuid" = Some v
           /\ commands (site w')
              = ("scancel " ++ py_str v) :: commands (site w))
  /\ (forall z r,
        resource_attributes w !! "remote_resource_uuid" = Some (VInt z) ->
        executor env (commands (site w)) ("scancel " ++ str_of_int z) = Ok r ->
        exists attrs w', terminate_resource env a w = (Ok attrs, w')).
Proof.
  split.
  - intros attrs w' H.
    destruct (resource_attributes w !! "remote_resource_uuid")
      as [v|] eqn:Hv.
    2:{ unfold terminate_resource, bind, getattr in H.
        rewrite Hv in H. discriminate H. }
    destruct (executor env (commands (site w)) ("scancel " ++ py_str v))
      as [r | e] eqn:Hexec.
    2:{ rewrite (terminate_resource_command_fails _ _ _ _ _ Hv Hexec) in H.
        discriminate H. }
    rewrite (terminate_resource_run _ _ _ _ _ Hv Hexec) in H.
    cbv zeta in H.
    destruct (py_int v) as [z | e]; cbn [result_bind] in H;
      [|discriminate H].
    injection H as <- <-. cbn [resource_attributes site commands].
    split; [apply lookup_union_Some_l; by simplify_map_eq|].
    split; [apply lookup_union_Some_l; by simplify_map_eq|].
    split; [by simplify_map_eq|]. split; [by simplify_map_eq|].
    exists v. split; reflexivity.
  - intros z r Hv Hexec.
    rewrite (terminate_resource_run _ _ _ _ _ Hv Hexec). cbn. eauto.
Qed.

Lemma terminate_resource_sets_Stopped_witness :
  exists attrs w',
    terminate_resource Scenario.env Scenario.adapter
      (Scenario.world (Scenario.cache_at 0 []) Scenario.deployed)
    = (Ok attrs, w')
    /\ attrs !! "resource_status" = Some (VStatus Stopped)
    /\ attrs !! "updated" = Some (VDatetime 100000000)
    /\ resource_attributes w' !! "resource_status" = Some (VStatus Stopped)
    /\ commands (site w') = ["scancel 4761849"].
Proof.
  pose (w := Scenario.world (Scenario.cache_at 0 []) Scenario.deployed).
  destruct (proj2 (terminate_resource_sets_Stopped
                     Scenario.env Scenario.adapter w)
              4761849 {| stdout := ""; stderr := ""; exit_code := 0 |}
              eq_refl eq_refl)
    as (attrs & w' & Hrun).
  exists attrs, w'. split; [exact Hrun|].
  destruct (proj1 (terminate_resource_sets_Stopped
                     Scenario.env Scenario.adapter w) attrs w' Hrun)
    as (H1 & H2 & H3 & _ & v & Hv & Hcmd).
  injection Hv as <-.
  repeat split; assumption.
Defined.

End Terminate.

(** ** Terminating twice *)

Section TerminateTwice.
Import PyStr PyValue Effects Slurm.

(** C4, amended.  When the cancel command fails, as it does when the
    scheduler no longer knows the handle, [terminate_resource] raises
    the [CommandExecutionFailure] to its caller, and behind
    [handle_exceptions] the caller sees the transient
    [TardisResourceStatusUpdateFailed]; the call leaves the resource
    attributes as they were, so the status it last wrote stays. *)
Theorem terminate_resource_raises_when_cancel_fails env a w v e :
  resource_attributes w !! "remote_resource_uuid" = Some v ->
  executor env (commands (site w)) ("scancel " ++ py_str v) = Raise e ->
  exn_cls e = CommandExecutionFailure ->
  exists w',
    terminate_resource env a w = (Raise e, w')
    /\ Slurm.handle_exceptions (terminate_resource env a) w
       = (Raise (Exn TardisResourceStatusUpdateFailed None (Some e)), w')
    /\ resource_attributes w' = resource_attributes w.
Proof.
  intros Hv Hexec Hcls.
  eexists. split; [apply (terminate_resource_command_fails _ _ _ _ _ Hv Hexec)|].
  split; [|reflexivity].
  unfold Slurm.handle_exceptions.
  rewrite (terminate_resource_command_fails _ _ _ _ _ Hv Hexec).
  unfold translate_exception. rewrite Hcls. reflexivity.
Qed.

(** The world in which the resource of the scenario has been
    terminated once. *)
Lemma first_terminate_succeeds :
  exists attrs,
    Slurm.handle_exceptions
      (terminate_resource Scenario.env Scenario.adapter)
      (Scenario.world (Scenario.cache_at 0 []) Scenario.deployed)
    = (Ok attrs, Scenario.terminated_once).
Proof.
  unfold Slurm.handle_exceptions.
  rewrite (terminate_resource_run Scenario.env Scenario.adapter
             (Scenario.world (Scenario.cache_at 0 []) Scenario.deployed)
             (VInt 4761849)
             {| stdout := ""; stderr := ""; exit_code := 0 |}
             eq_refl eq_refl).
  eexists. reflexivity.
Qed.

(** Terminating the resource of the scenario a second time, when the
    scheduler has forgotten the job: the cancel command fails, the call
    raises to its caller, and the resource is left in [Stopped], not in
    [Deleted]. *)
Lemma second_terminate_raises :
  executor Scenario.env (commands (site Scenario.terminated_once))
    "scancel 4761849" = Raise Scenario.command_failed
  /\ (forall attrs w',
        Slurm.handle_exceptions
          (terminate_resource Scenario.env Scenario.adapter)
          Scenario.terminated_once <> (Ok attrs, w'))
  /\ (exists w',
        Slurm.handle_exceptions
          (terminate_resource Scenario.env Scenario.adapter)
          Scenario.terminated_once
        = (Raise (Exn TardisResourceStatusUpdateFailed None
                    (Some Scenario.command_failed)), w')
        /\ resource_attributes w' !! "resource_status"
           = Some (VStatus Stopped)).
Proof.
  assert (Hv : resource_attributes Scenario.terminated_once
               !! "remote_resource_uuid" = Some (VInt 4761849))
    by reflexivity.
  assert (Hexec : executor Scenario.env
                    (commands (site Scenario.terminated_once))
                    ("scancel " ++ py_str (VInt 4761849))
                  = Raise Scenario.command_failed) by reflexivity.
  assert (Hrun : Slurm.handle_exceptions
                   (terminate_resource Scenario.env Scenario.adapter)
                   Scenario.terminated_once
                 = (Raise (Exn TardisResourceStatusUpdateFailed None
                             (Some Scenario.command_failed)),
                    {| site :=
                         {| ticks := 1;
                            commands :=
                              ["scancel 4761849"; "scancel 4761849"];
                            slurm_status := Scenario.cache_at 0 [] |};
                       resource_attributes :=
                         resource_attributes Scenario.terminated_once |})).
  { unfold Slurm.handle_exceptions.
    rewrite (terminate_resource_command_fails _ _ _ _ _ Hv Hexec).
    reflexivity. }
  split; [exact Hexec|]. split.
  - intros attrs w'' H. rewrite Hrun in H. discriminate H.
  - eexists. split; [exact Hrun|]. reflexivity.
Qed.

Lemma terminate_resource_raises_when_cancel_fails_witness :
  exists w',
    terminate_resource Scenario.env Scenario.adapter Scenario.terminated_once
    = (Raise Scenario.command_failed, w')
    /\ Slurm.handle_exceptions
         (terminate_resource Scenario.env Scenario.adapter)
         Scenario.terminated_once
       = (Raise (Exn TardisResourceStatusUpdateFailed None
                   (Some Scenario.command_failed)), w')
    /\ resource_attributes w'
       = resource_attributes Scenario.terminated_once.
Proof.
  exact (terminate_resource_raises_when_cancel_fails
           Scenario.env Scenario.adapter Scenario.terminated_once
           (VInt 4761849) Scenario.command_failed
           eq_refl eq_refl eq_refl).
Defined.

End TerminateTwice.

(** ** The status of a resource the batch does not list *)

Section UnknownHandle.
Import PyStr PyValue Effects Slurm.

Lemma resource_status_inconclusive env a w s1 v created :
  update_status env (site w) = (Ok tt, s1) ->
  resource_attributes w !! "remote_resource_uuid" = Some v ->
  data (slurm_status s1) !! py_str v = None ->
  resource_attributes w !! "created" = Some (VDatetime created) ->
  (last_update (slurm_status s1) < created)%Z ->
  resource_status env a w
  = (Raise (Exn TardisResourceStatusUpdateFailed None
              (Some (fresh KeyError))),
     {| site := s1; resource_attributes := resource_attributes w |}).
Proof.
  intros Hupd Hv Hdata Hcreated Hlt.
  unfold resource_status, bind, await_update_status, getattr, read_cache,
    unknown_handle, read_attributes, with_site.
  rewrite Hupd. cbn [site resource_attributes]. rewrite Hv.
  cbn [site resource_attributes]. rewrite Hdata.
  unfold bind, read_cache, read_attributes, raise.
  cbn [site resource_attributes]. rewrite Hcreated.
  destruct (Z.ltb_spec (last_update (slurm_status s1) - created) 0);
    [reflexivity | lia].
Qed.

Lemma resource_status_reclaimed env a w s1 v created :
  update_status env (site w) = (Ok tt, s1) ->
  resource_attributes w !! "remote_resource_uuid" = Some v ->
  data (slurm_status s1) !! py_str v = None ->
  resource_attributes w !! "created" = Some (VDatetime created) ->
  (created <= last_update (slurm_status s1))%Z ->
  resource_status env a w
  = (let attrs :=
       <["updated" := VDatetime (now_at env (ticks s1))]>
         (resource_attributes w) in
     (Ok (<["resource_status" := VStatus Deleted]> ∅ ∪ attrs),
      {| site := {| ticks := S (ticks s1); commands := commands s1;
                    slurm_status := slurm_status s1 |};
         resource_attributes := attrs |})).
Proof.
  intros Hupd Hv Hdata Hcreated Hle.
  unfold resource_status, bind, await_update_status, getattr, read_cache,
    unknown_handle, read_attributes, now, update_attributes, lift, ret,
    with_site.
  rewrite Hupd. cbn [site resource_attributes]. rewrite Hv.
  cbn [site resource_attributes]. rewrite Hdata.
  unfold bind, read_cache, read_attributes, ret.
  cbn [site resource_attributes]. rewrite Hcreated.
  destruct (Z.ltb_spec (last_update (slurm_status s1) - created) 0);
    [lia|].
  unfold now, update_attributes, lift, with_site.
  cbn [site resource_attributes ticks commands slurm_status fold_left fst snd].
  rewrite handle_response_COMPLETED. reflexivity.
Qed.

(** C1.  The unknown-handle race rule.  Let the remote handle of a
    resource be absent from the batch that the cache holds once
    [update_status] has returned.  If the cache was last refreshed
    strictly before the resource was created, [resource_status] raises
    [TardisResourceStatusUpdateFailed], which [handle_exceptions] lets
    pass, and decides nothing: the attributes are as they were and the
    clock has not been read.  If the cache was last refreshed at or
    after the creation, [resource_status] returns the attributes with
    the status [Deleted] (the state [COMPLETED] is put in the job's
    place and translated) and a new [updated] time, everything else
    unchanged. *)
Theorem unknown_handle_race_rule env a w s1 v created :
  update_status env (site w) = (Ok tt, s1) ->
  resource_attributes w !! "remote_resource_uuid" = Some v ->
  data (slurm_status s1) !! py_str v = None ->
  resource_attributes w !! "created" = Some (VDatetime created) ->
  ((last_update (slurm_status s1) < created)%Z ->
     exists e,
       exn_cls e = TardisResourceStatusUpdateFailed
       /\ resource_status env a w
          = (Raise e,
             {| site := s1; resource_attributes := resource_attributes w |})
       /\ Slurm.handle_exceptions (resource_status env a) w
          = (Raise e,
             {| site := s1; resource_attributes := resource_attributes w |}))
  /\ ((created <= last_update (slurm_status s1))%Z ->
       exists attrs w',
         resource_status env a w = (Ok attrs, w')
         /\ attrs !! "resource_status" = Some (VStatus Deleted)
         /\ attrs !! "updated" = Some (VDatetime (now_at env (ticks s1)))
         /\ (forall k, k <> "resource_status" -> k <> "updated" ->
               attrs !! k = resource_attributes w !! k)
         /\ resource_attributes w'
            = <["updated" := VDatetime (now_at env (ticks s1))]>
                (resource_attributes w)).
Proof.
  intros Hupd Hv Hdata Hcreated. split.
  - intros Hlt. eexists. split; [|split].
    2:{ apply (resource_status_inconclusive _ _ _ _ _ _
                 Hupd Hv Hdata Hcreated Hlt). }
    + reflexivity.
    + unfold Slurm.handle_exceptions.
      rewrite (resource_status_inconclusive _ _ _ _ _ _
                 Hupd Hv Hdata Hcreated Hlt).
      reflexivity.
  - intros Hle. eexists. eexists. split.
    { apply (resource_status_reclaimed _ _ _ _ _ _
               Hupd Hv Hdata Hcreated Hle). }
    cbn [resource_attributes].
    split; [apply lookup_union_Some_l; by simplify_map_eq|].
    split.
    { rewrite lookup_union_r by (by simplify_map_eq). by simplify_map_eq. }
    split; [|reflexivity].
    intros k Hk1 Hk2.
    rewrite lookup_union_r by (by simplify_map_eq). by simplify_map_eq.
Qed.

Lemma unknown_handle_race_rule_witness :
  (exists e w',
      resource_status Scenario.env Scenario.adapter
        (Scenario.world (Scenario.cache_at 40000000 []) Scenario.deployed)
      = (Raise e, w')
      /\ exn_cls e = TardisResourceStatusUpdateFailed
      /\ resource_attributes w' = list_to_map Scenario.deployed)
  /\ (exists attrs w',
        resource_status Scenario.env Scenario.adapter
          (Scenario.world (Scenario.cache_at 50000000 []) Scenario.deployed)
        = (Ok attrs, w')
        /\ attrs !! "resource_status" = Some (VStatus Deleted)).
Proof.
  split.
  - destruct (proj1 (unknown_handle_race_rule
                       Scenario.env Scenario.adapter
                       (Scenario.world (Scenario.cache_at 40000000 [])
                          Scenario.deployed)
                       _ (VInt 4761849) 50000000
                       eq_refl eq_refl eq_refl eq_refl))
      as (e & Hcls & Hrun & _); [simpl; lia|].
    exists e. eexists. split; [exact Hrun|]. split; [exact Hcls|reflexivity].
  - destruct (proj2 (unknown_handle_race_rule
                       Scenario.env Scenario.adapter
                       (Scenario.world (Scenario.cache_at 50000000 [])
                          Scenario.deployed)
                       _ (VInt 4761849) 50000000
                       eq_refl eq_refl eq_refl eq_refl))
      as (attrs & w' & Hrun & Hst & _); [simpl; lia|].
    exists attrs, w'. split; [exact Hrun | exact Hst].
Defined.

End UnknownHandle.

(** * Further properties of the code *)

(** ** What the operations of the Slurm adapter write *)

Section Frames.
Import PyStr PyValue Effects Slurm Frame.

Lemma writes_only_bind {A B} keys (m : M A) (k : A -> M B) :
  writes_only keys m -> (forall a, writes_only keys (k a)) ->
  writes_only keys (bind m k).
Proof.
  intros Hm Hk w r w' H key Hkey. unfold bind in H.
  destruct (m w) as [[a | e] w1] eqn:Hmw.
  - rewrite (Hk a _ _ _ H key Hkey). apply (Hm _ _ _ Hmw key Hkey).
  - injection H as <- <-. apply (Hm _ _ _ Hmw key Hkey).
Qed.

Lemma writes_only_pure {A} keys (m : M A) :
  (forall w, resource_attributes (m w).2 = resource_attributes w) ->
  writes_only keys m.
Proof.
  intros H w r w' Hm key _. specialize (H w). rewrite Hm in H.
  cbn in H. now rewrite H.
Qed.

Lemma writes_only_ret {A} keys (a : A) : writes_only keys (ret a).
Proof. now apply writes_only_pure. Qed.

Lemma writes_only_raise {A} keys e : writes_only keys (@raise A e).
Proof. now apply writes_only_pure. Qed.

Lemma writes_only_lift {A} keys (r : result A) : writes_only keys (lift r).
Proof. now apply writes_only_pure. Qed.

Lemma writes_only_now keys env : writes_only keys (now env).
Proof. now apply writes_only_pure. Qed.

Lemma writes_only_run_command keys env cmd :
  writes_only keys (run_command env cmd).
Proof. now apply writes_only_pure. Qed.

Lemma writes_only_read_cache keys : writes_only keys read_cache.
Proof. now apply writes_only_pure. Qed.

Lemma writes_only_read_attributes keys : writes_only keys read_attributes.
Proof. now apply writes_only_pure. Qed.

Lemma writes_only_getattr keys name : writes_only keys (getattr name).
Proof.
  apply writes_only_pure. intros w. unfold getattr.
  now destruct (resource_attributes w !! name).
Qed.

Lemma writes_only_await_update_status keys env :
  writes_only keys (await_update_status env).
Proof.
  apply writes_only_pure. intros w. unfold await_update_status.
  now destruct (update_status env (site w)).
Qed.

Lemma fold_insert_lookup_other (kwargs : list (string * value)) :
  forall (d : gmap string value) k,
    k ∉ kwargs.*1 ->
    fold_left (fun d kv => <[kv.1 := kv.2]> d) kwargs d !! k = d !! k.
Proof.
  induction kwargs as [|[k0 v0] kwargs IH]; intros d k Hk; [reflexivity|].
  cbn [fold_left]. cbn in Hk. apply not_elem_of_cons in Hk as [Hne Hk].
  rewrite (IH _ _ Hk). cbn. now rewrite lookup_insert_ne.
Qed.

Lemma writes_only_update_attributes kwargs :
  writes_only kwargs.*1 (update_attributes kwargs).
Proof.
  intros w r w' H k Hk. unfold update_attributes in H.
  injection H as _ <-. cbn. now apply fold_insert_lookup_other.
Qed.

Lemma writes_only_weaken {A} keys keys' (m : M A) :
  keys ⊆ keys' -> writes_only keys m -> writes_only keys' m.
Proof.
  intros Hsub Hm w r w' H k Hk. apply (Hm _ _ _ H). intros Hin.
  apply Hk, Hsub, Hin.
Qed.

Ltac frame_step :=
  first
    [ apply writes_only_bind; [|intros ?]
    | apply writes_only_ret
    | apply writes_only_raise
    | apply writes_only_lift
    | apply writes_only_now
    | apply writes_only_run_command
    | apply writes_only_read_cache
    | apply writes_only_read_attributes
    | apply writes_only_getattr
    | apply writes_only_await_update_status
    | (eapply writes_only_weaken; [|apply writes_only_update_attributes];
       cbn; set_solver)
    | match goal with
      | |- writes_only _ (match ?x with _ => _ end) => destruct x
      | |- writes_only _ (if ?x then _ else _) => destruct x
      end ].

(** X1.  Whatever the outcome of a call, [deploy_resource] changes the
    caller's attribute dictionary at most under the five keys it sets,
    [resource_status] at most under [updated], and
    [terminate_resource] and [stop_resource] at most under
    [resource_status] and [updated]; every other entry is left as it
    was, also when the call raises. *)
Theorem slurm_operations_write_only env a :
  writes_only
    ["remote_resource_uuid"; "created"; "updated"; "drone_uuid";
     "resource_status"] (deploy_resource env a)
  /\ writes_only ["updated"] (resource_status env a)
  /\ writes_only ["resource_status"; "updated"] (terminate_resource env a)
  /\ writes_only ["resource_status"; "updated"] (stop_resource env a).
Proof.
  split; [|split; [|split]].
  - unfold deploy_resource. repeat frame_step.
  - unfold resource_status, unknown_handle. repeat frame_step.
  - unfold terminate_resource. repeat frame_step.
  - unfold stop_resource, terminate_resource. repeat frame_step.
Qed.

End Frames.

(** ** Failed deployments *)

Section DeployFailure.
Import PyStr PyValue Effects Slurm.



End DeployFailure.

(** ** The submit pattern, line by line *)

Section FindallLines.
Import PyStr Slurm Lines.

Lemma take_digits_line l s :
  take_digits (l ++ String newline s) = take_digits l.
Proof.
  induction l as [|c l IH]; [reflexivity|].
  change (take_digits (String c (l ++ String newline s))
          = take_digits (String c l)).
  cbn [take_digits]. now rewrite IH.
Qed.

Lemma strip_prefix_line p : forall l s,
  (forall c, In c (list_ascii_of_string p) -> c <> newline) ->
  match strip_prefix p (l ++ String newline s) with
  | Some tail => [take_digits tail]
  | None => []
  end
  = match strip_prefix p l with
    | Some tail => [take_digits tail]
    | None => []
    end.
Proof.
  induction p as [|a p IH]; intros l s Hp.
  - cbn [strip_prefix]. now rewrite take_digits_line.
  - destruct l as [|b l].
    + change (EmptyString ++ String newline s) with (String newline s).
      cbn [strip_prefix].
      destruct (Ascii.eqb_spec a newline) as [-> | Hne]; [|reflexivity].
      exfalso. apply (Hp newline); [now left | reflexivity].
    + change (String b l ++ String newline s)
        with (String b (l ++ String newline s)).
      cbn [strip_prefix]. destruct (Ascii.eqb a b); [|reflexivity].
      apply IH. intros c Hc. apply Hp. now right.
Qed.

Lemma line_match_line l s :
  line_match (l ++ String newline s) = line_match l.
Proof.
  unfold line_match. apply strip_prefix_line.
  intros c Hc ->. vm_compute in Hc. intuition discriminate.
Qed.

Lemma lines_nonempty s : lines s <> [].
Proof.
  destruct s as [|c s]; cbn; [discriminate|].
  destruct (Ascii.eqb c newline); [discriminate|].
  destruct (lines s); discriminate.
Qed.

(** The first line of a text and what follows it. *)
Lemma lines_head s : forall l ls,
  lines s = l :: ls ->
  (ls = [] /\ s = l) \/ (exists s', s = l ++ String newline s' /\ ls = lines s').
Proof.
  induction s as [|c s IH]; intros l ls H; cbn in H.
  - injection H as <- <-. now left.
  - destruct (Ascii.eqb_spec c newline) as [-> | Hne].
    + injection H as <- <-. right. exists s. split; reflexivity.
    + destruct (lines s) as [|l0 ls0] eqn:Hs;
        [now destruct (lines_nonempty s)|].
      injection H as <- <-.
      destruct (IH l0 ls0 eq_refl) as [[-> ->] | (s' & -> & ->)].
      * now left.
      * right. exists s'. split; reflexivity.
Qed.

Lemma findall_from_lines s :
  findall_from true s = flat_map line_match (lines s)
  /\ findall_from false s = flat_map line_match (tail (lines s)).
Proof.
  induction s as [|c s [IHt IHf]]; [split; reflexivity|].
  rewrite !findall_from_unfold. cbn [lines].
  destruct (Ascii.eqb_spec c newline) as [-> | Hne].
  - cbn [tail flat_map]. rewrite IHt. split; reflexivity.
  - rewrite IHf.
    destruct (lines s) as [|l ls] eqn:Hs; [now destruct (lines_nonempty s)|].
    cbn [tail flat_map]. split; [|reflexivity]. f_equal.
    change (line_match (String c s) = line_match (String c l)).
    destruct (lines_head s l ls Hs) as [[_ ->] | (s' & -> & _)];
      [reflexivity|].
    apply (line_match_line (String c l) s').
Qed.

(** X3.  What [findall] returns for the pattern of [deploy_resource] is what
    matching line by line returns: for every line of the text that
    starts with the words [Submitted batch job] and a space, in order,
    the digits that follow them (none, if no digit follows).  So the
    job id is found in whichever line comes first with those words,
    and a text without such a line gives the empty list. *)
Theorem findall_line_by_line s :
  findall s = flat_map line_match (lines s).
Proof. apply findall_from_lines. Qed.

Example findall_line_by_line_example :
  lines ("sbatch: note" ++ String newline
         ("Submitted batch job 12" ++ String newline ""))
  = ["sbatch: note"; "Submitted batch job 12"; ""]
  /\ findall ("sbatch: note" ++ String newline
              ("Submitted batch job 12" ++ String newline "")) = ["12"].
Proof. vm_compute. split; reflexivity. Qed.

End FindallLines.

(** ** The batch of the status updater *)

Section StatusUpdater.
Import PyStr PyValue SlurmStatusUpdater.

Lemma store_row_well_formed row acc :
  well_formed row ->
  store_row row acc = Ok (<[job_id_of row := stripped row]> acc).
Proof.
  intros (j & st & Hj & Hs). unfold store_row, job_id_of, stripped.
  rewrite Hs. rewrite lookup_insert_ne by discriminate.
  now rewrite Hj.
Qed.

Lemma store_rows_well_formed rows : forall acc,
  Forall well_formed rows ->
  exists d, store_rows rows acc = Ok d
    /\ forall j,
        d !! j = match last (filter (fun r => job_id_of r = j) rows) with
                 | Some r => Some (stripped r)
                 | None => acc !! j
                 end.
Proof.
  induction rows as [|row rows IH]; intros acc Hwf.
  - exists acc. split; [reflexivity|]. intros j. reflexivity.
  - inversion Hwf as [|? ? Hrow Hrest]; subst.
    cbn [store_rows]. rewrite (store_row_well_formed _ _ Hrow).
    destruct (IH (<[job_id_of row := stripped row]> acc) Hrest)
      as (d & Hd & Hlook).
    exists d. split; [exact Hd|]. intros j. rewrite Hlook.
    rewrite filter_cons. destruct (decide (job_id_of row = j)) as [<- | Hne].
    + rewrite last_cons.
      destruct (last (filter _ rows)); [reflexivity|].
      now rewrite lookup_insert_eq.
    + destruct (last (filter _ rows)); [reflexivity|].
      now rewrite lookup_insert_ne.
Qed.

Lemma store_rows_missing_key rows : forall acc,
  Forall (fun row => forall v, row !! "State" = Some v -> exists s, v = VStr s)
    rows ->
  Exists (fun row => row !! "State" = None \/ row !! "JobId" = None) rows ->
  exists e, store_rows rows acc = Raise e /\ exn_cls e = KeyError.
Proof.
  induction rows as [|row rows IH]; intros acc Hstr Hex;
    [inversion Hex|].
  inversion Hstr as [|? ? Hrow Hrest]; subst.
  cbn [store_rows]. unfold store_row.
  destruct (row !! "State") as [v|] eqn:Hs;
    [|exists (fresh KeyError); split; reflexivity].
  destruct (Hrow v eq_refl) as [s ->].
  rewrite lookup_insert_ne by discriminate.
  destruct (row !! "JobId") as [j|] eqn:Hj;
    [|exists (fresh KeyError); split; reflexivity].
  assert (Hex' : Exists (fun row => row !! "State" = None
                                    \/ row !! "JobId" = None) rows).
  { inversion Hex as [? ? [H | H]|]; subst; [congruence|congruence|assumption]. }
  destruct j; apply IH; assumption.
Qed.

Variable htcondor_csv_parser :
  string -> list string -> string -> list (gmap string value).

(** X4.  When the listing command succeeds and every row that the parser
    yields has a job id and a state, [slurm_status_updater] returns a
    batch in which a job id is bound exactly when some row carries it,
    to the LAST such row with its state stripped.  The command is
    logged once, and the updater itself leaves the cache of the site as
    it is. *)
Theorem slurm_status_updater_last_row_wins env s out :
  executor env (commands s) cmd = Ok out ->
  Forall well_formed (htcondor_csv_parser (stdout out) attributes.*1 "|") ->
  exists d,
    slurm_status_updater htcondor_csv_parser env s
    = (Ok d, {| ticks := ticks s; commands := cmd :: commands s;
                slurm_status := slurm_status s |})
    /\ forall j,
        d !! j
        = stripped
            <$> last (filter (fun r => job_id_of r = j)
                        (htcondor_csv_parser (stdout out) attributes.*1 "|")).
Proof.
  intros Hrun Hwf. unfold slurm_status_updater. rewrite Hrun.
  destruct (store_rows_well_formed _ ∅ Hwf) as (d & Hd & Hlook).
  exists d. split; [now rewrite Hd|]. intros j. rewrite Hlook.
  destruct (last _); [reflexivity|]. apply lookup_empty.
Qed.

(** X5.  One row without a state or without a job id makes the whole update
    fail with [KeyError], wherever the row stands in the listing: no
    batch is returned, not even for the rows before it. *)
Theorem slurm_status_updater_all_or_nothing env s out :
  executor env (commands s) cmd = Ok out ->
  Forall (fun row => forall v, row !! "State" = Some v -> exists s, v = VStr s)
    (htcondor_csv_parser (stdout out) attributes.*1 "|") ->
  Exists (fun row => row !! "State" = None \/ row !! "JobId" = None)
    (htcondor_csv_parser (stdout out) attributes.*1 "|") ->
  exists e,
    fst (slurm_status_updater htcondor_csv_parser env s) = Raise e
    /\ exn_cls e = KeyError.
Proof.
  intros Hrun Hstr Hex. unfold slurm_status_updater. rewrite Hrun.
  cbn [fst]. now apply store_rows_missing_key.
Qed.

End StatusUpdater.

Lemma job_well_formed j h st :
  SlurmStatusUpdater.well_formed (Scenario3.job j h st).
Proof. exists j, st. split; reflexivity. Qed.

Lemma slurm_status_updater_last_row_wins_witness :
  exists d,
    SlurmStatusUpdater.slurm_status_updater (fun _ _ _ => Scenario3.rows)
      Scenario3.env Scenario3.site
    = (Ok d, {| ticks := 0; commands := [SlurmStatusUpdater.cmd];
                slurm_status := Scenario.cache_at 0 [] |})
    /\ d !! "4761849" = Some (Scenario3.job "4761849" "node17" "RUNNING")
    /\ d !! "4761851" = None.
Proof.
  destruct (slurm_status_updater_last_row_wins (fun _ _ _ => Scenario3.rows)
              Scenario3.env Scenario3.site _ eq_refl) as (d & Hd & Hlook).
  { repeat constructor; apply job_well_formed. }
  exists d. split; [exact Hd|]. split.
  - rewrite Hlook. reflexivity.
  - rewrite Hlook. reflexivity.
Defined.

Lemma slurm_status_updater_all_or_nothing_witness :
  exists e,
    fst (SlurmStatusUpdater.slurm_status_updater
           (fun _ _ _ => (Scenario3.rows ++ [Scenario3.short_row])%list)
           Scenario3.env Scenario3.site) = Raise e
    /\ exn_cls e = KeyError.
Proof.
  apply (slurm_status_updater_all_or_nothing
           (fun _ _ _ => (Scenario3.rows ++ [Scenario3.short_row])%list)
           Scenario3.env Scenario3.site _ eq_refl).
  - repeat constructor; intros v Hv; vm_compute in Hv;
      try discriminate; injection Hv as <-; eexists; reflexivity.
  - apply Exists_app. right. constructor. left. reflexivity.
Defined.

(** ** A resource without a remote handle *)

Section NoHandle.
Import PyStr PyValue Effects Slurm.

(** X6.  A resource that has no [remote_resource_uuid] yet, because it was
    never deployed, cannot be terminated, stopped or asked for its
    status: behind [handle_exceptions] each of the three raises
    [TardisError] with the [AttributeError] as its cause.
    [terminate_resource] and [stop_resource] then run no command and
    leave everything as it is; [resource_status] has refreshed the
    cache by then, and has done nothing else. *)
Theorem operations_need_a_remote_handle env a w s1 :
  resource_attributes w !! "remote_resource_uuid" = None ->
  update_status env (site w) = (Ok tt, s1) ->
  Slurm.handle_exceptions (terminate_resource env a) w
  = (Raise (raise_from TardisError (fresh AttributeError)), w)
  /\ Slurm.handle_exceptions (stop_resource env a) w
     = (Raise (raise_from TardisError (fresh AttributeError)), w)
  /\ Slurm.handle_exceptions (resource_status env a) w
     = (Raise (raise_from TardisError (fresh AttributeError)),
        {| site := s1; resource_attributes := resource_attributes w |}).
Proof.
  intros Hnone Hupd.
  assert (Hterm : terminate_resource env a w
                  = (Raise (fresh AttributeError), w)).
  { unfold terminate_resource, bind, getattr. now rewrite Hnone. }
  unfold Slurm.handle_exceptions, stop_resource. rewrite Hterm.
  split; [reflexivity|]. split; [reflexivity|].
  unfold resource_status, bind, await_update_status, getattr, with_site.
  rewrite Hupd. cbn [resource_attributes]. now rewrite Hnone.
Qed.

Lemma operations_need_a_remote_handle_witness :
  Slurm.handle_exceptions
    (terminate_resource Scenario.env Scenario.adapter)
    (Scenario.world (Scenario.cache_at 0 []) [])
  = (Raise (raise_from TardisError (fresh AttributeError)),
     Scenario.world (Scenario.cache_at 0 []) []).
Proof.
  exact (proj1 (operations_need_a_remote_handle
                  Scenario.env Scenario.adapter
                  (Scenario.world (Scenario.cache_at 0 []) []) _
                  eq_refl eq_refl)).
Defined.

End NoHandle.

(** ** Deploying and terminating *)

Section DeployThenTerminate.
Import PyStr PyValue Effects Slurm.
Local Open Scope effects_scope.



End DeployThenTerminate.

(** ** The status of a listed job *)

Section ListedJob.
Import PyStr PyValue Effects Slurm.

(** X8.  When the batch lists the job of a resource, [resource_status]
    answers from that row whatever the age of the batch: the time of
    the last refresh and the [created] attribute are not looked at, so
    the call cannot end in the transient
    [TardisResourceStatusUpdateFailed] of the unknown-handle rule.  It
    reads the clock once and writes that reading as [updated] into the
    caller's dictionary; what it returns is the translation of the row
    laid over the dictionary so updated. *)
Theorem resource_status_of_listed_job env a w s1 v row :
  update_status env (site w) = (Ok tt, s1) ->
  resource_attributes w !! "remote_resource_uuid" = Some v ->
  data (slurm_status s1) !! py_str v = Some row ->
  let attrs :=
    <["updated" := VDatetime (now_at env (ticks s1))]>
      (resource_attributes w) in
  resource_status env a w
  = (result_bind (handle_response row ∅)
       (fun translated => Ok (translated ∪ attrs)),
     {| site := {| ticks := S (ticks s1); commands := commands s1;
                   slurm_status := slurm_status s1 |};
        resource_attributes := attrs |}).
Proof.
  intros Hupd Hv Hrow.
  unfold resource_status, bind, await_update_status, getattr, read_cache,
    read_attributes, now, update_attributes, lift, ret, with_site.
  rewrite Hupd. cbn [site resource_attributes]. rewrite Hv.
  cbn [site resource_attributes]. rewrite Hrow.
  cbn [site resource_attributes ticks commands slurm_status fold_left fst snd].
  destruct (handle_response row ∅); reflexivity.
Qed.

Lemma resource_status_of_listed_job_witness :
  exists out,
    resource_status Scenario.env Scenario.adapter
      (Scenario.world
         (Scenario.cache_at 0 [("4761849", Scenario2.row "RUNNING")])
         Scenario.deployed)
    = (out,
       {| site := {| ticks := 1; commands := [];
                     slurm_status :=
                       Scenario.cache_at 0
                         [("4761849", Scenario2.row "RUNNING")] |};
          resource_attributes :=
            <["updated" := VDatetime 100000000]>
              (list_to_map Scenario.deployed) |}).
Proof.
  eexists.
  exact (resource_status_of_listed_job Scenario.env Scenario.adapter
           (Scenario.world
              (Scenario.cache_at 0 [("4761849", Scenario2.row "RUNNING")])
              Scenario.deployed)
           _ (VInt 4761849) (Scenario2.row "RUNNING")
           eq_refl eq_refl eq_refl).
Defined.

End ListedJob.

(** ** The observers of a drone *)

Section DroneObservers.
Import DroneModel.
Context {State Observer BatchSystemAgent : Type}.
Context {Observer_eq_dec : EqDecision Observer}.
Local Abbreviation Drone := (DroneModel.Drone State Observer BatchSystemAgent).

Lemma list_remove_Some (x : Observer) l : forall r,
  list_remove x l = Some r ->
  exists l1 l2, l = (l1 ++ x :: l2)%list /\ (x ∉ l1) /\ r = (l1 ++ l2)%list.
Proof.
  induction l as [|y l IH]; intros r H; cbn in H; [discriminate|].
  destruct (decide (y = x)) as [-> | Hne].
  - injection H as <-. exists [], l. split; [reflexivity|].
    split; [apply not_elem_of_nil | reflexivity].
  - destruct (list_remove x l) as [r'|] eqn:Hr; [|discriminate].
    injection H as <-.
    destruct (IH r' eq_refl) as (l1 & l2 & -> & Hnot & ->).
    exists (y :: l1), l2. split; [reflexivity|]. split; [|reflexivity].
    intros Hin. apply elem_of_cons in Hin as [-> | Hin]; [now apply Hne|].
    now apply Hnot.
Qed.

Lemma list_remove_None (x : Observer) l :
  list_remove x l = None -> x ∉ l.
Proof.
  induction l as [|y l IH]; intros H; cbn in H; [apply not_elem_of_nil|].
  destruct (decide (y = x)) as [-> | Hne]; [discriminate|].
  destruct (list_remove x l); [discriminate|].
  intros Hin. apply elem_of_cons in Hin as [-> | Hin]; [now apply Hne|].
  now apply IH.
Qed.


Lemma with_observers_same (d : Drone) : with_observers d (_observers d) = d.
Proof. now destruct d. Qed.

(** X9.  [remove_observers] takes out the FIRST registration of the agent
    and nothing else: the observers before it and after it stay, in
    their order, and so does every other field of the drone.  It
    raises [ValueError] exactly when the agent is not registered. *)
Theorem remove_observers_first_registration (d : Drone) (agent : Observer) :
  match remove_observers d agent with
  | Ok d' =>
      exists before after,
        _observers d = (before ++ agent :: after)%list
        /\ (agent ∉ before)
        /\ d' = with_observers d (before ++ after)%list
  | Raise e => e = fresh ValueError /\ agent ∉ _observers d
  end.
Proof.
  unfold remove_observers.
  destruct (list_remove agent (_observers d)) as [r|] eqn:Hr.
  - destruct (list_remove_Some _ _ _ Hr) as (l1 & l2 & H1 & H2 & ->).
    exists l1, l2. repeat split; assumption.
  - split; [reflexivity | now apply list_remove_None].
Qed.


(** X11.  Registering does not look at who is registered already: after the
    agents of a list have been registered one by one, iterating the
    notifications to its end calls [notify] once for every
    registration, the earlier observers first and the new ones in the
    order of their registration, an agent registered twice being
    notified twice. *)
Theorem notifications_follow_registrations (d : Drone)
    (agents : list Observer) (log : NotifyLog State Observer BatchSystemAgent) :
  let d' := fold_left register_observers agents d in
  _observers d' = (_observers d ++ agents)%list
  /\ exhaust (notify_observers d') log
     = (log ++ map (fun observer => (observer, d'))
                 (_observers d ++ agents))%list.
Proof.
  assert (Hobs : forall agents (d : Drone),
             _observers (fold_left register_observers agents d)
             = (_observers d ++ agents)%list).
  { clear. induction agents as [|x agents IH]; intros d; cbn [fold_left].
    - now rewrite app_nil_r.
    - rewrite IH. cbn [register_observers with_observers _observers].
      now rewrite <- app_assoc. }
  cbv zeta. split; [apply Hobs|].
  rewrite <- Hobs.
  generalize (fold_left register_observers agents d) as d'. intros d'.
  cbn [exhaust notify_observers].
  generalize (_observers d') as l. intros l. revert log.
  induction l as [|o l IH]; intros log; cbn [fold_left map].
  - now rewrite app_nil_r.
  - rewrite IH. now rewrite <- app_assoc.
Qed.

End DroneObservers.


(** ** The Exoscale adapter *)

Section ExoscaleFacts.
Import PyValue ExoscaleAdapter.

Lemma translate_translator (m : gmap string value) :
  translate translator m ∅
  = match m !! "id", m !! "name", m !! "created", m !! "state" with
    | Some i, Some n, Some c, Some s =>
        Ok (<["updated" := c]>
              (<["resource_status" := s]>
                 (<["created" := c]>
                    (<["dns_name" := n]> (<["resource_id" := i]> ∅)))))
    | _, _, _, _ => Raise (fresh KeyError)
    end.
Proof.
  unfold translator. cbn [translate].
  destruct (m !! "id"); [|reflexivity].
  destruct (m !! "name"); [|reflexivity].
  destruct (m !! "created"); [|reflexivity].
  destruct (m !! "state"); reflexivity.
Qed.

(** The machine that [handle_response] reads: the one under
    [virtualmachine], or the first of the list there. *)
Lemma handle_response_machine response :
  match response !! "virtualmachine" with
  | None => handle_response response = Raise (fresh KeyError)
  | Some (Machines []) => handle_response response = Raise (fresh IndexError)
  | Some (Machines (m :: _)) | Some (Machine m) =>
      handle_response response = translate translator m ∅
  end.
Proof.
  unfold handle_response.
  destruct (response !! "virtualmachine") as [[m | [|m l]]|]; reflexivity.
Qed.

Lemma handle_response_updated response :
  match handle_response response with
  | Ok t => t !! "updated" = t !! "created"
            /\ is_Some (t !! "resource_status")
  | Raise e => e = fresh KeyError \/ e = fresh IndexError
  end.
Proof.
  pose proof (handle_response_machine response) as H.
  destruct (response !! "virtualmachine") as [[m | [|m l]]|]; rewrite H;
    try (auto; fail);
    rewrite translate_translator;
    destruct (m !! "id"), (m !! "name"), (m !! "created"), (m !! "state");
    auto; (split; [by simplify_map_eq | eexists; by simplify_map_eq]).
Qed.

(** X12.  What [handle_response] returns is read from ONE machine, the one
    under [virtualmachine] or the first of a list there, and holds
    exactly five keys: the id, the name, the creation time and the
    state of that machine, and as [updated] the creation time again.
    Whatever else the machine or the list holds is dropped.  It fails
    with [IndexError] on an empty list, and with [KeyError] when
    [virtualmachine] is missing or the machine lacks one of the four
    keys; it raises nothing else. *)
Theorem exoscale_handle_response_shape
    (response : gmap string virtualmachine) :
  match handle_response response with
  | Ok t =>
      exists m,
        (response !! "virtualmachine" = Some (Machine m)
         \/ exists rest,
              response !! "virtualmachine" = Some (Machines (m :: rest)))
        /\ t !! "resource_id" = m !! "id"
        /\ t !! "dns_name" = m !! "name"
        /\ t !! "created" = m !! "created"
        /\ t !! "resource_status" = m !! "state"
        /\ t !! "updated" = m !! "created"
        /\ forall k, is_Some (t !! k) <-> k ∈ translator.*1
  | Raise e =>
      (e = fresh IndexError
       /\ response !! "virtualmachine" = Some (Machines []))
      \/ (e = fresh KeyError
          /\ (response !! "virtualmachine" = None
              \/ exists m key,
                   (response !! "virtualmachine" = Some (Machine m)
                    \/ exists rest,
                         response !! "virtualmachine"
                         = Some (Machines (m :: rest)))
                   /\ key ∈ translator.*2 /\ m !! key = None))
  end.
Proof.
  pose proof (handle_response_machine response) as H.
  assert (Hm : forall m,
    (response !! "virtualmachine" = Some (Machine m)
     \/ exists rest,
          response !! "virtualmachine" = Some (Machines (m :: rest))) ->
    handle_response response = translate translator m ∅ ->
    match handle_response response with
    | Ok t =>
        exists m,
          (response !! "virtualmachine" = Some (Machine m)
           \/ exists rest,
                response !! "virtualmachine" = Some (Machines (m :: rest)))
          /\ t !! "resource_id" = m !! "id"
          /\ t !! "dns_name" = m !! "name"
          /\ t !! "created" = m !! "created"
          /\ t !! "resource_status" = m !! "state"
          /\ t !! "updated" = m !! "created"
          /\ forall k, is_Some (t !! k) <-> k ∈ translator.*1
    | Raise e =>
        (e = fresh IndexError
         /\ response !! "virtualmachine" = Some (Machines []))
        \/ (e = fresh KeyError
            /\ (response !! "virtualmachine" = None
                \/ exists m key,
                     (response !! "virtualmachine" = Some (Machine m)
                      \/ exists rest,
                           response !! "virtualmachine"
                           = Some (Machines (m :: rest)))
                     /\ key ∈ translator.*2 /\ m !! key = None))
    end).
  { intros m Hwhich ->. rewrite translate_translator.
    destruct (m !! "id") as [i|] eqn:Hi.
    2:{ right. split; [reflexivity|]. right. exists m, "id".
        split; [exact Hwhich|]. split; [apply (bool_decide_unpack _); vm_compute; reflexivity | exact Hi]. }
    destruct (m !! "name") as [n|] eqn:Hn.
    2:{ right. split; [reflexivity|]. right. exists m, "name".
        split; [exact Hwhich|]. split; [apply (bool_decide_unpack _); vm_compute; reflexivity | exact Hn]. }
    destruct (m !! "created") as [c|] eqn:Hc.
    2:{ right. split; [reflexivity|]. right. exists m, "created".
        split; [exact Hwhich|]. split; [apply (bool_decide_unpack _); vm_compute; reflexivity | exact Hc]. }
    destruct (m !! "state") as [s|] eqn:Hs.
    2:{ right. split; [reflexivity|]. right. exists m, "state".
        split; [exact Hwhich|]. split; [apply (bool_decide_unpack _); vm_compute; reflexivity | exact Hs]. }
    exists m. split; [exact Hwhich|].
    rewrite Hi, Hn, Hc, Hs.
    split; [by simplify_map_eq|]. split; [by simplify_map_eq|].
    split; [by simplify_map_eq|]. split; [by simplify_map_eq|].
    split; [by simplify_map_eq|].
    intros k. cbn. split.
    - intros [v Hv].
      destruct (decide (k = "updated")) as [-> | H1]; 
        [apply (bool_decide_unpack _); vm_compute; reflexivity|].
      destruct (decide (k = "resource_status")) as [-> | H2]; 
        [apply (bool_decide_unpack _); vm_compute; reflexivity|].
      destruct (decide (k = "created")) as [-> | H3]; 
        [apply (bool_decide_unpack _); vm_compute; reflexivity|].
      destruct (decide (k = "dns_name")) as [-> | H4]; 
        [apply (bool_decide_unpack _); vm_compute; reflexivity|].
      destruct (decide (k = "resource_id")) as [-> | H5]; 
        [apply (bool_decide_unpack _); vm_compute; reflexivity|].
      by simplify_map_eq.
    - intros Hk.
      repeat (apply elem_of_cons in Hk as [-> | Hk];
              [eexists; by simplify_map_eq|]).
      inversion Hk. }
  destruct (response !! "virtualmachine") as [[m | [|m l]]|] eqn:Hv.
  - apply (Hm m); [now left | exact H].
  - rewrite H. left. split; reflexivity.
  - apply (Hm m); [right; now exists l | exact H].
  - rewrite H. right. split; [reflexivity | now left].
Qed.

(** X13.  The ways in which [resource_status] ends behind
    [handle_exceptions].  Without a [resource_id] it raises
    [AttributeError] and the client is not called.  Otherwise the
    client is called once, with that id.  An exception of the client
    is translated as the two [except] clauses say; a response is handed
    to [handle_response], and what that raises ([KeyError],
    [IndexError]) leaves the adapter as it is, untranslated.  A result
    has as [updated] the creation time of the machine, not the time of
    the call. *)
Theorem exoscale_resource_status_outcomes (a : ExoscaleAdapter)
    (resource_attributes : gmap string value) (calls : list ClientCall) :
  match resource_attributes !! "resource_id" with
  | None =>
      handle_exceptions (resource_status a resource_attributes) calls
      = (Raise (fresh AttributeError), calls)
  | Some id =>
      exists r,
        handle_exceptions (resource_status a resource_attributes) calls
        = (r, listVirtualMachines id :: calls)
        /\ match cloud_stack_client a calls (listVirtualMachines id) with
           | Raise e => r = Raise (Exoscale.translate_exception e)
           | Ok response =>
               r = handle_response response
               /\ match r with
                  | Ok t => t !! "updated" = t !! "created"
                            /\ is_Some (t !! "resource_status")
                  | Raise e => e = fresh KeyError \/ e = fresh IndexError
                  end
           end
  end.
Proof.
  unfold handle_exceptions, resource_status, call.
  destruct (resource_attributes !! "resource_id") as [id|]; [|reflexivity].
  destruct (cloud_stack_client a calls (listVirtualMachines id))
    as [response | e]; [|eexists; split; reflexivity].
  pose proof (handle_response_updated response) as H.
  destruct (handle_response response) as [t | e].
  - eexists. split; [reflexivity|]. split; [reflexivity|]. exact H.
  - destruct H as [-> | ->]; eexists; (split; [reflexivity|]);
      (split; [reflexivity|]); [left | right]; reflexivity.
Qed.

(** X14.  The ways in which [deploy_resource] ends.  A machine type without
    configuration ([KeyError]) and a configuration that names the
    machine itself ([TypeError]) end the call before the client is
    asked for anything.  Otherwise the client is asked exactly once,
    for a machine named by [dns_name] with the configuration of the
    machine type; its exception is raised as it is, and its response
    goes through [handle_response]. *)
Theorem exoscale_deploy_resource_outcomes (a : ExoscaleAdapter)
    (unique_id : string) (calls : list ClientCall)
    (r : result (gmap string value)) (calls' : list ClientCall) :
  deploy_resource a unique_id calls = (r, calls') ->
  (calls' = calls
   /\ ((r = Raise (fresh KeyError)
        /\ MachineTypeConfiguration a !! _machine_type a = None)
       \/ (r = Raise (fresh TypeError)
           /\ exists kwargs,
                MachineTypeConfiguration a !! _machine_type a = Some kwargs
                /\ is_Some (kwargs !! "name"))))
  \/ (exists kwargs,
        MachineTypeConfiguration a !! _machine_type a = Some kwargs
        /\ kwargs !! "name" = None
        /\ calls' = deployVirtualMachine (dns_name a unique_id) kwargs :: calls
        /\ match cloud_stack_client a calls
                   (deployVirtualMachine (dns_name a unique_id) kwargs) with
           | Raise e => r = Raise e
           | Ok response => r = handle_response response
           end).
Proof.
  unfold deploy_resource, call. intros H.
  destruct (MachineTypeConfiguration a !! _machine_type a) as [kwargs|].
  2:{ injection H as <- <-. left. split; [reflexivity|]. left. now split. }
  destruct (kwargs !! "name") as [v|] eqn:Hname.
  { injection H as <- <-. left. split; [reflexivity|]. right.
    split; [reflexivity|]. exists kwargs. split; [reflexivity|].
    rewrite Hname. now exists v. }
  right. exists kwargs. split; [reflexivity|]. split; [exact Hname|].
  destruct (cloud_stack_client a calls
              (deployVirtualMachine (dns_name a unique_id) kwargs));
    injection H as <- <-; split; reflexivity.
Qed.

End ExoscaleFacts.

Lemma exoscale_deploy_resource_outcomes_witness :
  snd (ExoscaleAdapter.deploy_resource Scenario4.adapter "0a1b" [])
  = [ExoscaleAdapter.deployVirtualMachine "tardis-0a1b.exoscale"
       {["serviceofferingid" := VStr "so-1"]}]
  /\ fst (ExoscaleAdapter.deploy_resource Scenario4.adapter "0a1b" [])
     = ExoscaleAdapter.handle_response
         {["virtualmachine" := ExoscaleAdapter.Machine Scenario4.machine]}.
Proof.
  destruct (exoscale_deploy_resource_outcomes Scenario4.adapter "0a1b" [] _ _
              (surjective_pairing _))
    as [[Hcalls _] | (kwargs & Hk & _ & Hcalls & Hr)].
  - vm_compute in Hcalls. discriminate Hcalls.
  - vm_compute in Hk. injection Hk as <-.
    split; [exact Hcalls | exact Hr].
Defined.

(** ** The cache in front of [get_user] *)

Section LruCacheFacts.
Import LruCache.
Context {K V : Type}.
Context {K_eq_dec : EqDecision K}.
Implicit Types (c : cache (K := K) (V := V)) (f : K -> result V).

Lemma find_elem_of key c v : find key c = Some v -> (key, v) ∈ c.
Proof.
  induction c as [|[k v'] c IH]; cbn; [discriminate|].
  destruct (decide (k = key)) as [-> | Hne].
  - intros [= ->]. apply list_elem_of_here.
  - intros H. apply list_elem_of_further. now apply IH.
Qed.


Lemma remove_sublist key c : remove key c `sublist_of` c.
Proof.
  induction c as [|[k v] c IH]; cbn; [constructor|].
  destruct (decide (k = key)).
  - now apply sublist_cons.
  - now apply sublist_skip.
Qed.

Lemma removelast_sublist c : removelast c `sublist_of` c.
Proof.
  induction c as [|x c IH]; cbn; [constructor|].
  destruct c as [|y c]; [apply sublist_nil_l|]. now apply sublist_skip.
Qed.




Lemma cached_call_agrees maxsize f key c :
  agrees f c ->
  fst (cached_call maxsize f key c) = f key
  /\ agrees f (snd (cached_call maxsize f key c)).
Proof.
  intros Hc. unfold cached_call.
  destruct (find key c) as [v|] eqn:Hfind.
  - pose proof (Hc _ _ (find_elem_of _ _ _ Hfind)) as Hv. cbn.
    split; [now rewrite Hv|].
    intros k v' Hin. apply elem_of_cons in Hin as [[= -> ->] | Hin];
      [exact Hv|].
    apply Hc. eapply elem_of_sublist; [exact Hin | apply remove_sublist].
  - destruct (f key) as [v | e] eqn:Hf; cbn; [|split; [reflexivity | exact Hc]].
    split; [reflexivity|].
    intros k v' Hin. destruct (maxsize <=? length c)%nat;
      apply elem_of_cons in Hin as [[= -> ->] | Hin]; try exact Hf.
    + apply Hc. eapply elem_of_sublist; [exact Hin | apply removelast_sublist].
    + now apply Hc.
Qed.


End LruCacheFacts.

(** ** [RestService] *)

Section RestServiceFacts.
Import PyValue RestService.
Context {DatabaseUser : Type}.
Variable new_DatabaseUser : gmap string value -> result DatabaseUser.

(** X15.  The body of [get_user] answers from the FIRST user of the list that
    has the name: what comes after it is not looked at, not even for
    being well formed.  It answers [None] exactly when every user has
    another name, and it fails exactly when, before any user of that
    name, it meets a user without a [user_name] ([KeyError]), or when
    the first user of that name cannot be made a [DatabaseUser]. *)
Theorem find_user_first_match (users : list (gmap string value))
    (user_name : string) :
  match find_user new_DatabaseUser users user_name with
  | Ok None => Forall (other_user user_name) users
  | Ok (Some database_user) =>
      exists before user after,
        users = (before ++ user :: after)%list
        /\ Forall (other_user user_name) before
        /\ user !! "user_name" = Some (VStr user_name)
        /\ new_DatabaseUser user = Ok database_user
  | Raise e =>
      exists before user after,
        users = (before ++ user :: after)%list
        /\ Forall (other_user user_name) before
        /\ ((user !! "user_name" = None /\ e = fresh KeyError)
            \/ (user !! "user_name" = Some (VStr user_name)
                /\ new_DatabaseUser user = Raise e))
  end.
Proof.
  induction users as [|user users IH]; cbn [find_user]; [constructor|].
  destruct (user !! "user_name") as [v|] eqn:Hname.
  2:{ exists [], user, users. split; [reflexivity|].
      split; [constructor|]. left. now split. }
  destruct (decide (v = VStr user_name)) as [-> | Hne].
  - destruct (new_DatabaseUser user) as [du | e] eqn:Hnew; cbn [result_bind].
    + exists [], user, users. repeat split; try assumption. constructor.
    + exists [], user, users. split; [reflexivity|].
      split; [constructor|]. right. now split.
  - assert (Hother : other_user user_name user) by (exists v; now split).
    destruct (find_user new_DatabaseUser users user_name) as [[du|] | e].
    + destruct IH as (before & u & after & -> & Hb & Hu & Hnew).
      exists (user :: before), u, after. split; [reflexivity|].
      split; [now constructor|]. now split.
    + now constructor.
    + destruct IH as (before & u & after & -> & Hb & Hu).
      exists (user :: before), u, after. split; [reflexivity|].
      split; [now constructor | exact Hu].
Qed.

Lemma get_users_agrees (service : RestService) names : forall c,
  LruCache.agrees (find_user new_DatabaseUser (_users service)) c ->
  fst (get_users new_DatabaseUser (map (fun n => (service, n)) names) c)
  = map (find_user new_DatabaseUser (_users service)) names.
Proof.
  induction names as [|n names IH]; intros c Hc; [reflexivity|].
  cbn [map get_users]. unfold get_user.
  destruct (cached_call_agrees 16 _ n c Hc) as [Hr Hc'].
  destruct (LruCache.cached_call 16 _ n c) as [r c'] eqn:Hcall.
  cbn [fst snd] in Hr, Hc'. specialize (IH c' Hc').
  destruct (get_users new_DatabaseUser _ c') as [rs c''].
  cbn [fst] in *. now rewrite Hr, IH.
Qed.

(** X16.  As long as the users of a service stay what they are, the cache in
    front of [get_user] cannot be told from its absence: whatever names
    are asked for, in whatever order and however often, every call
    answers what the search of the list answers, exceptions included. *)
Theorem get_user_cache_is_transparent (service : RestService)
    (names : list string) :
  fst (get_users new_DatabaseUser (map (fun n => (service, n)) names) [])
  = map (find_user new_DatabaseUser (_users service)) names.
Proof.
  apply get_users_agrees. intros k v Hin. inversion Hin.
Qed.


(** X18.  An answer once given is given again: when [get_user] has answered
    for a name, [None] included, the next call for that name answers
    the same and leaves the cache as it is, whatever users the service
    has by then.  An exception is not remembered: the call that raised
    left the cache as it found it. *)
Theorem get_user_answers_from_cache (service : RestService)
    (user_name : string) c r c' :
  get_user new_DatabaseUser service user_name c = (r, c') ->
  match r with
  | Ok answer =>
      forall service',
        get_user new_DatabaseUser service' user_name c' = (Ok answer, c')
  | Raise _ => c' = c
  end.
Proof.
  unfold get_user, LruCache.cached_call. intros H.
  assert (Hhit : forall (answer : option DatabaseUser) rest service',
    match LruCache.find user_name ((user_name, answer) :: rest) with
    | Some v => (Ok v, (user_name, v)
                         :: LruCache.remove user_name
                              ((user_name, answer) :: rest))
    | None =>
        match find_user new_DatabaseUser (_users service') user_name with
        | Ok v =>
            (Ok v,
             if (16 <=? length ((user_name, answer) :: rest))%nat
             then (user_name, v) :: removelast ((user_name, answer) :: rest)
             else (user_name, v) :: (user_name, answer) :: rest)
        | Raise e => (Raise e, (user_name, answer) :: rest)
        end
    end = (Ok answer, (user_name, answer) :: rest)).
  { intros answer rest service'. cbn [LruCache.find LruCache.remove].
    destruct (decide (user_name = user_name)); [reflexivity | congruence]. }
  destruct (LruCache.find user_name c) as [v|].
  - injection H as <- <-. intros service'. apply Hhit.
  - destruct (find_user new_DatabaseUser (_users service) user_name)
      as [v | e].
    + destruct (16 <=? length c)%nat; injection H as <- <-;
        intros service'; apply Hhit.
    + now injection H as <- <-.
Qed.

End RestServiceFacts.

Lemma get_user_answers_from_cache_witness :
  RestService.find_user Scenario5.new_DatabaseUser
    (RestService._users Scenario5.after) "alice" = Ok (Some Scenario5.alice)
  /\ RestService.get_user Scenario5.new_DatabaseUser Scenario5.after "alice"
       [("alice", None)]
     = (Ok None, [("alice", None)]).
Proof.
  split; [reflexivity|].
  exact (get_user_answers_from_cache Scenario5.new_DatabaseUser
           Scenario5.before "alice" [] (Ok None) [("alice", None)] eq_refl
           Scenario5.after).
Defined.
